(** * GPS recorder: decimation predicate, odometer and polling cycle

    A shallow embedding of [src/index.js].  JavaScript values are a small
    tagged union, numbers are IEEE-754 binary64 values in the executable
    specification of the standard library ([spec_float] at precision 53,
    maximal exponent 1024), exceptions are an error monad, and the
    callbacks of one polling cycle are a function from the recording state
    and the collaborators' answers to the new state and the list of
    effects the cycle performs. *)

From Stdlib Require Import ZArith String Ascii List Bool Lia Permutation.
From Stdlib Require Import SpecFloat.
Import ListNotations.

Local Open Scope string_scope.
Local Open Scope Z_scope.
Local Open Scope list_scope.

(** ** JavaScript numbers *)

Module Num.

Definition number : Type := spec_float.

Definition prec : Z := 53.
Definition emax : Z := 1024.

Definition ofZ (z : Z) : number := binary_normalize prec emax z 0 false.

Definition zero : number := S754_zero false.
Definition nan : number := S754_nan.

Definition mul : number -> number -> number := SFmul prec emax.
Definition add : number -> number -> number := SFadd prec emax.
Definition sub : number -> number -> number := SFsub prec emax.
Definition div : number -> number -> number := SFdiv prec emax.
Definition sqrt : number -> number := SFsqrt prec emax.

(** [x === y] and [x < y] on two numbers. *)
Definition eqb : number -> number -> bool := SFeqb.
Definition ltb : number -> number -> bool := SFltb.

(** The nearest double to [m * 10^e], the value of a decimal literal. *)
Definition ofDecimal (neg : bool) (m : Z) (e : Z) : number :=
  match m with
  | Z0 => S754_zero neg
  | Zneg _ => nan
  | Zpos p =>
      match e with
      | Zneg k =>
          let '(q, e', l) :=
            SFdiv_core_binary prec emax (Zpos p) 0 (Zpos (Pos.pow 10 k)) 0 in
          binary_round_aux prec emax neg q e' l
      | Z0 => binary_round prec emax neg p 0
      | Zpos k => binary_round prec emax neg (p * Pos.pow 10 k)%positive 0
      end
  end.

End Num.

(** ** JavaScript values

    The values this program handles: replies of the key-value store are
    strings or [null], configuration values and the fields of a persisted
    record may be numbers, and a field the record model does not declare
    reads as [undefined]. *)

Inductive JsValue : Type :=
  | JUndefined
  | JNull
  | JString (s : string)
  | JNumber (n : Num.number).

(** Errors a callback can be left with: the [TypeError] of a property read
    on [null], and the rejection or error an external call reports. *)
Inductive JsError : Type :=
  | TypeError (msg : string)
  | ExternalError (msg : string).

(** The functions this file does not define: the language's conversions
    between strings and numbers, and the [gps-distance] package. *)
Record Runtime : Type := {
  (** the conversion that [==] applies to a string compared with a number *)
  StringToNumber : string -> Num.number;
  (** the conversion a template literal applies to a number *)
  NumberToString : Num.number -> string;
  (** the global [parseFloat] *)
  parseFloat : JsValue -> Num.number;
  (** [gpsDistance(lat1, lon1, lat2, lon2)], in kilometres *)
  gpsDistance : Num.number -> Num.number -> Num.number -> Num.number -> Num.number
}.

(** The options read through [config.get]. *)
Record Config : Type := {
  minTravelDistanceM : Num.number;
  interval : Num.number;
  key_recordTripIDA : string;
  key_odo : string;
  key_tripA : string;
  key_tripB : string
}.

Module Js.

(** [ToBoolean]. *)
Definition truthy (v : JsValue) : bool :=
  match v with
  | JUndefined | JNull => false
  | JString s => negb (String.eqb s "")
  | JNumber n =>
      match n with
      | S754_zero _ | S754_nan => false
      | _ => true
      end
  end.

(** [a === b]. *)
Definition strict_eq (a b : JsValue) : bool :=
  match a, b with
  | JUndefined, JUndefined => true
  | JNull, JNull => true
  | JString s, JString t => String.eqb s t
  | JNumber x, JNumber y => Num.eqb x y
  | _, _ => false
  end.

Definition strict_neq (a b : JsValue) : bool := negb (strict_eq a b).

(** [a == b]. *)
Definition loose_eq (rt : Runtime) (a b : JsValue) : bool :=
  match a, b with
  | (JUndefined | JNull), (JUndefined | JNull) => true
  | JString s, JString t => String.eqb s t
  | JNumber x, JNumber y => Num.eqb x y
  | JNumber x, JString t => Num.eqb x (StringToNumber rt t)
  | JString s, JNumber y => Num.eqb (StringToNumber rt s) y
  | _, _ => false
  end.

Definition loose_neq (rt : Runtime) (a b : JsValue) : bool :=
  negb (loose_eq rt a b).

(** The literal [0]. *)
Definition num0 : JsValue := JNumber Num.zero.

(** [ToString], as in [`${v}`]. *)
Definition ToString (rt : Runtime) (v : JsValue) : string :=
  match v with
  | JUndefined => "undefined"
  | JNull => "null"
  | JString s => s
  | JNumber n => NumberToString rt n
  end.

End Js.

(** ** Completions: a value, or a thrown error *)

Inductive completion (A : Type) : Type :=
  | Return (a : A)
  | Throw (e : JsError).

Arguments Return {A} a.
Arguments Throw {A} e.

Definition bind {A B : Type} (c : completion A) (k : A -> completion B)
  : completion B :=
  match c with
  | Return a => k a
  | Throw e => Throw e
  end.

Notation "x <- c ;; k" := (bind c (fun x => k))
  (at level 61, c at next level, right associativity).

(** [a && b], the right operand evaluated only when the left one holds. *)
Definition andc (a : bool) (b : completion bool) : completion bool :=
  if a then b else Return false.

(** ** Trip points and snapshots *)

(** The object [transformIntoTripPoint] builds, and the fields of the
    record [TripPoint.create] resolves to that this program reads. *)
Record Point : Type := {
  tripID : JsValue;
  latitude : JsValue;
  longitude : JsValue;
  altitude : JsValue;
  fixMode : JsValue;
  gpsSpeed : JsValue;
  accuracyLat : JsValue;
  accuracyLon : JsValue;
  accuracyAlt : JsValue;
  accuracySpd : JsValue;
  vehicleSpeed : JsValue;
  vehicleIntakeTemp : JsValue;
  vehicleIntakeMAP : JsValue;
  vehicleRPM : JsValue
}.

(** [x.f] where [x] may be [null]. *)
Definition prop (x : option Point) (f : Point -> JsValue) : completion JsValue :=
  match x with
  | Some p => Return (f p)
  | None => Throw (TypeError "Cannot read properties of null")
  end.

Definition is_null {A : Type} (x : option A) : bool :=
  match x with
  | Some _ => false
  | None => true
  end.

Section Predicate.

Variable rt : Runtime.
Variable cfg : Config.

(** [current.latitude == 0 && current.longitude == 0]. *)
Definition zero_fix (current : option Point) : completion bool :=
  lat <- prop current latitude ;;
  andc (Js.loose_eq rt lat Js.num0)
       (lon <- prop current longitude ;; Return (Js.loose_eq rt lon Js.num0)).

(** [current.latitude != 0 && current.longitude != 0]. *)
Definition nonzero_fix (current : option Point) : completion bool :=
  lat <- prop current latitude ;;
  andc (Js.loose_neq rt lat Js.num0)
       (lon <- prop current longitude ;; Return (Js.loose_neq rt lon Js.num0)).

(** [prev.latitude === current.latitude && prev.longitude === current.longitude]. *)
Definition same_position (prev current : option Point) : completion bool :=
  plat <- prop prev latitude ;;
  clat <- prop current latitude ;;
  andc (Js.strict_eq plat clat)
       (plon <- prop prev longitude ;;
        clon <- prop current longitude ;;
        Return (Js.strict_eq plon clon)).

(** [gpsDistance(parseFloat(prev.latitude), parseFloat(prev.longitude),
    parseFloat(current.latitude), parseFloat(current.longitude)) * 1000]. *)
Definition metres_between (prev current : option Point) : completion Num.number :=
  plat <- prop prev latitude ;;
  plon <- prop prev longitude ;;
  clat <- prop current latitude ;;
  clon <- prop current longitude ;;
  Return (Num.mul (gpsDistance rt (parseFloat rt plat) (parseFloat rt plon)
                                  (parseFloat rt clat) (parseFloat rt clon))
                  (Num.ofZ 1000)).

(** [pointNeedsUpdate(prev, current)], lines 91-117. *)
Definition pointNeedsUpdate (prev current : option Point) : completion bool :=
  if is_null prev && is_null current then Return false else
  first_fix <- andc (is_null prev)
                    (andc (negb (is_null current)) (nonzero_fix current)) ;;
  if first_fix then Return true else
  unset <- zero_fix current ;;
  if unset then Return false else
  pspeed <- prop prev vehicleSpeed ;;
  cspeed <- prop current vehicleSpeed ;;
  if Js.strict_neq pspeed cspeed then Return true else
  same <- same_position prev current ;;
  if same then Return false else
  m <- metres_between prev current ;;
  if Num.ltb m (minTravelDistanceM cfg) then Return false else
  Return true.

(** The tests of the predicate as they read once both points exist. *)
Definition is_zero_fix (c : Point) : bool :=
  Js.loose_eq rt (latitude c) Js.num0 && Js.loose_eq rt (longitude c) Js.num0.

Definition speed_changed (p c : Point) : bool :=
  Js.strict_neq (vehicleSpeed p) (vehicleSpeed c).

Definition position_kept (p c : Point) : bool :=
  Js.strict_eq (latitude p) (latitude c)
  && Js.strict_eq (longitude p) (longitude c).

Definition metres (p c : Point) : Num.number :=
  Num.mul (gpsDistance rt (parseFloat rt (latitude p)) (parseFloat rt (longitude p))
                          (parseFloat rt (latitude c)) (parseFloat rt (longitude c)))
          (Num.ofZ 1000).

End Predicate.

(** One trip of the trip repository; [tripID] is the only field read. *)
Module Trip.
Record t : Type := { tripID : JsValue }.
End Trip.

(** The object [o] that [getCurrentData] fills, one field per entry of
    [REDIS_KEYS]. *)
Record Snapshot : Type := {
  o_gpsAlive : JsValue;
  o_obdAlive : JsValue;
  o_latitude : JsValue;
  o_longitude : JsValue;
  o_altitude : JsValue;
  o_fixMode : JsValue;
  o_gpsTime : JsValue;
  o_gpsSpeed : JsValue;
  o_gpsSpeedKMH : JsValue;
  o_gpsAccuracyLon : JsValue;
  o_gpsAccuracyLat : JsValue;
  o_gpsAccuracyHeight : JsValue;
  o_gpsAccuracySpeed : JsValue;
  o_obdSpeedKMH : JsValue;
  o_engineRpm : JsValue;
  o_intakeTemp : JsValue;
  o_intakeMAP : JsValue;
  o_recordTripIDA : JsValue;
  o_recordTripIDB : JsValue
}.

(** The body of the loop of [replaceNaN] on one field. *)
Definition nan_to_null (v : JsValue) : JsValue :=
  if Js.strict_eq v (JString "nan") then JNull else v.

(** [replaceNaN(o)], lines 119-124. *)
Definition replaceNaN (o : Point) : Point :=
  {| tripID := nan_to_null (tripID o);
     latitude := nan_to_null (latitude o);
     longitude := nan_to_null (longitude o);
     altitude := nan_to_null (altitude o);
     fixMode := nan_to_null (fixMode o);
     gpsSpeed := nan_to_null (gpsSpeed o);
     accuracyLat := nan_to_null (accuracyLat o);
     accuracyLon := nan_to_null (accuracyLon o);
     accuracyAlt := nan_to_null (accuracyAlt o);
     accuracySpd := nan_to_null (accuracySpd o);
     vehicleSpeed := nan_to_null (vehicleSpeed o);
     vehicleIntakeTemp := nan_to_null (vehicleIntakeTemp o);
     vehicleIntakeMAP := nan_to_null (vehicleIntakeMAP o);
     vehicleRPM := nan_to_null (vehicleRPM o) |}.

(** [transformIntoTripPoint(tripID, o)], lines 71-89. *)
Definition transformIntoTripPoint (id : JsValue) (o : Snapshot) : Point :=
  let out :=
    {| tripID := id;
       latitude := o_latitude o;
       longitude := o_longitude o;
       altitude := o_altitude o;
       fixMode := o_fixMode o;
       gpsSpeed := o_gpsSpeed o;
       accuracyLat := o_gpsAccuracyLat o;
       accuracyLon := o_gpsAccuracyLon o;
       accuracyAlt := o_gpsAccuracyHeight o;
       accuracySpd := o_gpsAccuracySpeed o;
       vehicleSpeed := o_obdSpeedKMH o;
       vehicleIntakeTemp := o_intakeTemp o;
       vehicleIntakeMAP := o_intakeMAP o;
       vehicleRPM := o_engineRpm o |} in
  replaceNaN out.

(** [point.tripID = v]. *)
Definition set_tripID (v : JsValue) (p : Point) : Point :=
  {| tripID := v;
     latitude := latitude p;
     longitude := longitude p;
     altitude := altitude p;
     fixMode := fixMode p;
     gpsSpeed := gpsSpeed p;
     accuracyLat := accuracyLat p;
     accuracyLon := accuracyLon p;
     accuracyAlt := accuracyAlt p;
     accuracySpd := accuracySpd p;
     vehicleSpeed := vehicleSpeed p;
     vehicleIntakeTemp := vehicleIntakeTemp p;
     vehicleIntakeMAP := vehicleIntakeMAP p;
     vehicleRPM := vehicleRPM p |}.

(** ** The recording state and the effects of a cycle *)

(** The two module-level variables, lines 136-137. *)
Record Recording : Type := {
  recordingTripA : option Trip.t;
  lastRecordedDataA : option Point
}.

(** What a cycle does to the outside, in the order it does it. *)
Inductive Effect : Type :=
  | LogError (msg : string)
  | FindOrCreate (id : JsValue)              (* Trip.findOrCreate *)
  | LiveSet (key : string) (v : JsValue)     (* rClient.set *)
  | PersistentSet (key : string) (v : JsValue) (* prClient.set *)
  | CreatePoint (point : Point)              (* TripPoint.create *)
  | Incrbyfloat (key : string) (amount : Num.number) (* prClient.incrbyfloat *)
  | SetTimeoutRun (delay : Num.number)       (* setTimeout(run, delay) *)
  | Uncaught (e : JsError).                  (* an exception nothing catches *)

(** What the collaborators answer during one cycle: the arguments
    [getCurrentData] passes to its callback, and the outcome of the two
    repository promises ([inl] resolved, [inr] rejected). *)
Record Answers : Type := {
  getCurrentData : option JsError * Snapshot;
  Trip_findOrCreate : JsValue -> Trip.t + JsError;
  TripPoint_create : Point -> Point + JsError
}.

Definition is_SetTimeoutRun (e : Effect) : bool :=
  match e with
  | SetTimeoutRun _ => true
  | _ => false
  end.

Definition is_CreatePoint (e : Effect) : bool :=
  match e with
  | CreatePoint _ => true
  | _ => false
  end.

(** The cycle has scheduled its successor. *)
Definition rescheduled (effects : list Effect) : bool :=
  existsb is_SetTimeoutRun effects.

(** The cycle has asked the repository to persist a point. *)
Definition persists (effects : list Effect) : bool :=
  existsb is_CreatePoint effects.

Section Recorder.

Variable rt : Runtime.
Variable cfg : Config.

(** [updateOdoMeters(prClient, prev, current)], lines 126-134. *)
Definition updateOdoMeters (prev : option Point) (current : Point) : list Effect :=
  match prev with
  | None => []
  | Some pv =>
      let kmDistance :=
        gpsDistance rt (parseFloat rt (latitude pv)) (parseFloat rt (longitude pv))
                       (parseFloat rt (latitude current))
                       (parseFloat rt (longitude current)) in
      let mDistance := Num.mul kmDistance (Num.ofZ 1000) in
      [ Incrbyfloat (key_odo cfg) mDistance;
        Incrbyfloat (key_tripA cfg) mDistance;
        Incrbyfloat (key_tripB cfg) mDistance ]
  end.

(** Line 146: the active trip is dropped when the requested identifier
    is not the active trip's. *)
Definition drop_stale_trip (o : Snapshot) (st : Recording) : Recording :=
  match recordingTripA st with
  | Some trip =>
      if Js.loose_neq rt (o_recordTripIDA o) (Trip.tripID trip)
      then {| recordingTripA := None; lastRecordedDataA := lastRecordedDataA st |}
      else st
  | None => st
  end.

(** Line 147: the point of this cycle. *)
Definition cycle_point (o : Snapshot) (st : Recording) : Point :=
  transformIntoTripPoint
    (match recordingTripA st with
     | Some trip => Trip.tripID trip
     | None => JNull
     end) o.

(** Line 148: [!lastRecordedDataA || pointNeedsUpdate(lastRecordedDataA, point)]. *)
Definition wants_point (st : Recording) (point : Point) : completion bool :=
  if is_null (lastRecordedDataA st) then Return true
  else pointNeedsUpdate rt cfg (lastRecordedDataA st) (Some point).

(** [TripPoint.create(point)] with its two continuations, lines 159-169
    and again lines 175-185. *)
Definition create_point (w : Answers) (st : Recording) (point : Point)
  : Recording * list Effect :=
  match TripPoint_create w point with
  | inl p =>
      ({| recordingTripA := recordingTripA st; lastRecordedDataA := Some p |},
       CreatePoint point
         :: updateOdoMeters (lastRecordedDataA st) p
         ++ [SetTimeoutRun (interval cfg)])
  | inr err =>
      (st, [CreatePoint point; LogError "Failed to create Point";
            SetTimeoutRun (interval cfg)])
  end.

(** Line 171: [`Failed to create Trip ${o.recordTripIDA}: `]. *)
Definition failed_trip_line (id : JsValue) : string :=
  String.append "Failed to create Trip " (String.append (Js.ToString rt id) ": ").

(** Lines 149-186: resolve the trip when none is active, then persist
    the point. *)
Definition record_point (w : Answers) (o : Snapshot) (st : Recording)
    (point : Point) : Recording * list Effect :=
  match recordingTripA st with
  | None =>
      match Trip_findOrCreate w (o_recordTripIDA o) with
      | inl trip =>
          let st :=
            {| recordingTripA := Some trip;
               lastRecordedDataA := lastRecordedDataA st |} in
          let point := set_tripID (Trip.tripID trip) point in
          let '(st', effects) := create_point w st point in
          (st', FindOrCreate (o_recordTripIDA o)
                  :: LiveSet (key_recordTripIDA cfg) (Trip.tripID trip)
                  :: PersistentSet (key_recordTripIDA cfg) (Trip.tripID trip)
                  :: effects)
      | inr err =>
          (st, [FindOrCreate (o_recordTripIDA o);
                LogError (failed_trip_line (o_recordTripIDA o));
                SetTimeoutRun (interval cfg)])
      end
  | Some _ => create_point w st point
  end.

(** One cycle: [run] with the callback of [getCurrentData] and the
    continuations it starts, lines 139-197. *)
Definition run (w : Answers) (st : Recording) : Recording * list Effect :=
  let '(err, o) := getCurrentData w in
  match err with
  | Some e => (st, [LogError "Error while getting current data from REDIS:"])
  | None =>
      if Js.truthy (o_gpsAlive o) then
        if Js.truthy (o_recordTripIDA o) then
          let st := drop_stale_trip o st in
          let point := cycle_point o st in
          match wants_point st point with
          | Throw e => (st, [Uncaught e])
          | Return true => record_point w o st point
          | Return false => (st, [SetTimeoutRun (interval cfg)])
          end
        else (st, [SetTimeoutRun (interval cfg)])
      else (st, [SetTimeoutRun (interval cfg)])
  end.

(** One chain of cycles: a call of [run] and the cycles that follow it
    through [setTimeout], each run when the one before it has scheduled
    it.  [ws] holds the collaborators' answers cycle by cycle.  The call
    of [run] that starts a chain is the one of the 'connect' handler of
    the live store's client, lines 214-217; every 'connect' event starts
    a chain of its own. *)
Fixpoint cycles (ws : list Answers) (st : Recording) : Recording * list Effect :=
  match ws with
  | [] => (st, [])
  | w :: ws' =>
      let '(st', effects) := run w st in
      if rescheduled effects then
        let '(st'', later) := cycles ws' st' in (st'', effects ++ later)
      else (st', effects)
  end.

(** How many cycles of [ws] run in the chain. *)
Fixpoint cycles_run (ws : list Answers) (st : Recording) : nat :=
  match ws with
  | [] => O
  | w :: ws' =>
      let '(st', effects) := run w st in
      if rescheduled effects then S (cycles_run ws' st') else 1%nat
  end.

(** The trip of this cycle is at hand: still active after line 146, or
    answered by the trip repository. *)
Definition trip_resolves (w : Answers) (o : Snapshot) (st : Recording) : bool :=
  match recordingTripA (drop_stale_trip o st) with
  | Some _ => true
  | None =>
      match Trip_findOrCreate w (o_recordTripIDA o) with
      | inl _ => true
      | inr _ => false
      end
  end.

Definition with_minTravelDistanceM (m : Num.number) (c : Config) : Config :=
  {| minTravelDistanceM := m;
     interval := interval c;
     key_recordTripIDA := key_recordTripIDA c;
     key_odo := key_odo c;
     key_tripA := key_tripA c;
     key_tripB := key_tripB c |}.

End Recorder.

(** ** A runtime to run the embedding on examples

    [Sample.runtime] reads decimal literals the way the language does
    (sign, digits, fraction, exponent, [Infinity], surrounding white
    space), which is the form the telemetry values have; the other literal
    forms read as NaN here.  It prints a number with the fewest digits
    that read back as the same number.  The distance is a flat-earth stand-in for the
    [gps-distance] package.  The theorems below hold for every runtime;
    only the closed examples use this one. *)

Module Sample.

Definition is_digit (c : ascii) : bool :=
  let n := Z.of_N (N_of_ascii c) in (48 <=? n) && (n <=? 57).

Definition digit_value (c : ascii) : Z := Z.of_N (N_of_ascii c) - 48.

Definition is_space (c : ascii) : bool :=
  let n := Z.of_N (N_of_ascii c) in
  (n =? 32) || ((9 <=? n) && (n <=? 13)).

Fixpoint skip_spaces (cs : list ascii) : list ascii :=
  match cs with
  | c :: cs' => if is_space c then skip_spaces cs' else cs
  | [] => []
  end.

Definition trim (cs : list ascii) : list ascii :=
  rev (skip_spaces (rev (skip_spaces cs))).

(** A run of digits: its value, its length and what follows it. *)
Fixpoint digits (cs : list ascii) (acc count : Z) : Z * Z * list ascii :=
  match cs with
  | c :: cs' =>
      if is_digit c then digits cs' (acc * 10 + digit_value c) (count + 1)
      else (acc, count, cs)
  | [] => (acc, count, [])
  end.

Definition sign (cs : list ascii) : bool * list ascii :=
  match cs with
  | "+"%char :: cs' => (false, cs')
  | "-"%char :: cs' => (true, cs')
  | _ => (false, cs)
  end.

Fixpoint strip_prefix (p cs : list ascii) : option (list ascii) :=
  match p, cs with
  | [], _ => Some cs
  | a :: p', c :: cs' => if Ascii.eqb a c then strip_prefix p' cs' else None
  | _ :: _, [] => None
  end.

(** An optional exponent part; nothing is consumed when it is not
    complete. *)
Definition exponent (cs : list ascii) : Z * list ascii :=
  match cs with
  | c :: cs' =>
      if Ascii.eqb c "e" || Ascii.eqb c "E" then
        let '(neg, r1) := sign cs' in
        let '(v, n, r2) := digits r1 0 0 in
        if n =? 0 then (0, cs) else (if neg then - v else v, r2)
      else (0, cs)
  | [] => (0, [])
  end.

(** The longest decimal literal at the head of [cs] and what follows. *)
Definition decimal_literal (cs : list ascii) : option (Num.number * list ascii) :=
  let '(neg, r) := sign cs in
  match strip_prefix (list_ascii_of_string "Infinity") r with
  | Some r' => Some (S754_infinity neg, r')
  | None =>
      let '(ip, ni, r1) := digits r 0 0 in
      let '(fp, nf, r2) :=
        match r1 with
        | "."%char :: r' => digits r' 0 0
        | _ => (0, 0, r1)
        end in
      if ni + nf =? 0 then None
      else
        let '(ex, r3) := exponent r2 in
        Some (Num.ofDecimal neg (ip * 10 ^ nf + fp) (ex - nf), r3)
  end.

Definition StringToNumber_decimal (s : string) : Num.number :=
  match trim (list_ascii_of_string s) with
  | [] => Num.zero
  | cs =>
      match decimal_literal cs with
      | Some (v, []) => v
      | _ => Num.nan
      end
  end.

Definition parseFloat_decimal (v : JsValue) : Num.number :=
  match v with
  | JUndefined | JNull => Num.nan
  | JNumber (S754_zero _) => Num.zero
  | JNumber n => n
  | JString s =>
      match decimal_literal (skip_spaces (list_ascii_of_string s)) with
      | Some (x, _) => x
      | None => Num.nan
      end
  end.

(** The decimal digits of a natural number. *)
Fixpoint digits_of_aux (fuel : nat) (z : Z) (acc : string) : string :=
  match fuel with
  | O => acc
  | S fuel' =>
      let acc' := String (ascii_of_N (Z.to_N (48 + z mod 10))) acc in
      if z <? 10 then acc' else digits_of_aux fuel' (z / 10) acc'
  end.

Definition digits_of (z : Z) : string :=
  digits_of_aux (S (Z.to_nat (Z.log2 z))) z "".

Fixpoint zeros (n : nat) : string :=
  match n with
  | O => ""
  | S n' => String "0" (zeros n')
  end.

(** [num / den < 10^n]. *)
Definition below_power (num den n : Z) : bool :=
  if 0 <=? n then num <? 10 ^ n * den else num * 10 ^ (- n) <? den.

(** The least [n], from [n] on, with [num / den < 10^n]. *)
Fixpoint magnitude (fuel : nat) (num den n : Z) : Z :=
  match fuel with
  | O => n
  | S fuel' =>
      if below_power num den n then n else magnitude fuel' num den (n + 1)
  end.

(** The integers next to [num / den / 10^(n - k)], the nearer one first
    and the even one first when both are as near. *)
Definition nearest_digits (num den n k : Z) : list Z :=
  let a := if 0 <=? n - k then num else num * 10 ^ (k - n) in
  let b := if 0 <=? n - k then den * 10 ^ (n - k) else den in
  let q := a / b in
  let r := a mod b in
  match 2 * r ?= b with
  | Lt => [q; q + 1]
  | Gt => [q + 1; q]
  | Eq => if Z.even q then [q; q + 1] else [q + 1; q]
  end.

(** The first candidate of [k] digits, or [10^k] itself, that reads back
    as [x]. *)
Definition reads_back (x : Num.number) (n k : Z) (candidates : list Z)
  : option Z :=
  find (fun c =>
          (10 ^ (k - 1) <=? c) && (c <=? 10 ^ k)
          && Num.eqb (Num.ofDecimal false c (n - k)) x)
       candidates.

(** The shortest digits that read back as [x], from [k] digits on. *)
Fixpoint shortest (fuel : nat) (x : Num.number) (num den n k : Z) : Z * Z :=
  match fuel with
  | O => (hd 0 (nearest_digits num den n k), k)
  | S fuel' =>
      match reads_back x n k (nearest_digits num den n k) with
      | Some c => (c, k)
      | None => shortest fuel' x num den n (k + 1)
      end
  end.

(** The digits [ds] of a number below [10^n], laid out as the language
    prints them. *)
Definition layout (ds : string) (n : Z) : string :=
  let k := Z.of_nat (String.length ds) in
  if (k <=? n) && (n <=? 21) then
    String.append ds (zeros (Z.to_nat (n - k)))
  else if (0 <? n) && (n <=? 21) then
    String.append (substring 0 (Z.to_nat n) ds)
      (String.append "." (substring (Z.to_nat n) (Z.to_nat (k - n)) ds))
  else if (-6 <? n) && (n <=? 0) then
    String.append "0." (String.append (zeros (Z.to_nat (- n))) ds)
  else
    let e := n - 1 in
    let exponent :=
      String.append (if 0 <=? e then "e+" else "e-") (digits_of (Z.abs e)) in
    if k =? 1 then String.append ds exponent
    else
      String.append (substring 0 1 ds)
        (String.append "." (String.append (substring 1 (Z.to_nat (k - 1)) ds)
                                          exponent)).

(** A number as a template literal prints it. *)
Definition NumberToString_decimal (x : Num.number) : string :=
  match x with
  | S754_nan => "NaN"
  | S754_zero _ => "0"
  | S754_infinity neg => if neg then "-Infinity" else "Infinity"
  | S754_finite neg m e =>
      let num := if 0 <=? e then Zpos m * 2 ^ e else Zpos m in
      let den := if 0 <=? e then 1 else 2 ^ (- e) in
      let n := magnitude 640 num den (-324) in
      let '(c, k) := shortest 16 (S754_finite false m e) num den n 1 in
      String.append (if neg then "-" else "")
        (if c =? 10 ^ k then layout "1" (n + 1) else layout (digits_of c) n)
  end.

(** Kilometres between two positions on a plane with 111.195 km to the
    degree. *)
Definition flatDistance (lat1 lon1 lat2 lon2 : Num.number) : Num.number :=
  let dlat := Num.sub lat2 lat1 in
  let dlon := Num.sub lon2 lon1 in
  Num.mul (Num.ofDecimal false 111195 (-3))
          (Num.sqrt (Num.add (Num.mul dlat dlat) (Num.mul dlon dlon))).

Definition runtime : Runtime :=
  {| StringToNumber := StringToNumber_decimal;
     NumberToString := NumberToString_decimal;
     parseFloat := parseFloat_decimal;
     gpsDistance := flatDistance |}.

Definition config : Config :=
  {| minTravelDistanceM := Num.ofZ 10;
     interval := Num.ofZ 1000;
     key_recordTripIDA := "record.trip.a";
     key_odo := "odo";
     key_tripA := "trip.a";
     key_tripB := "trip.b" |}.

(** A snapshot with the given liveness flag, requested trip, position
    and vehicle speed, the other signals unset. *)
Definition snapshot (alive trip lat lon speed : JsValue) : Snapshot :=
  {| o_gpsAlive := alive; o_obdAlive := JNull;
     o_latitude := lat; o_longitude := lon; o_altitude := JNull;
     o_fixMode := JNull; o_gpsTime := JNull; o_gpsSpeed := JNull;
     o_gpsSpeedKMH := JNull; o_gpsAccuracyLon := JNull;
     o_gpsAccuracyLat := JNull; o_gpsAccuracyHeight := JNull;
     o_gpsAccuracySpeed := JNull; o_obdSpeedKMH := speed;
     o_engineRpm := JNull; o_intakeTemp := JNull; o_intakeMAP := JNull;
     o_recordTripIDA := trip; o_recordTripIDB := JNull |}.

(** A point of the given trip, position and vehicle speed. *)
Definition point (trip lat lon speed : JsValue) : Point :=
  transformIntoTripPoint trip (snapshot JNull JNull lat lon speed).

(** Repositories that never fail: the trip found has the requested
    identifier, the record created has the fields it was given. *)
Definition answers (o : Snapshot) : Answers :=
  {| getCurrentData := (None, o);
     Trip_findOrCreate := fun id => inl {| Trip.tripID := id |};
     TripPoint_create := fun p => inl p |}.

(** The fetch of the snapshot reports an error. *)
Definition failed_fetch (o : Snapshot) : Answers :=
  {| getCurrentData := (Some (ExternalError "connection lost"), o);
     Trip_findOrCreate := fun id => inl {| Trip.tripID := id |};
     TripPoint_create := fun p => inl p |}.

(** The point repository rejects every point. *)
Definition failed_create (o : Snapshot) : Answers :=
  {| getCurrentData := (None, o);
     Trip_findOrCreate := fun id => inl {| Trip.tripID := id |};
     TripPoint_create := fun p => inr (ExternalError "insert failed") |}.

Definition s (v : string) : JsValue := JString v.

(** Nothing recorded yet. *)
Definition idle : Recording :=
  {| recordingTripA := None; lastRecordedDataA := None |}.

(** Trip [id] is active and its last point is [p]. *)
Definition recording (id : JsValue) (p : Point) : Recording :=
  {| recordingTripA := Some {| Trip.tripID := id |};
     lastRecordedDataA := Some p |}.

(** A parked vehicle, seen while trip 1 is recorded and again when trip
    2 is requested. *)
Definition parked : Point := point (s "1") (s "47.1") (s "8.5") (s "10").
Definition parked_trip2 : Snapshot :=
  snapshot (s "1") (s "2") (s "47.1") (s "8.5") (s "10").

(** The same place at two vehicle speeds, and a place 11 m north of it. *)
Definition here_10 : Snapshot :=
  snapshot (s "1") (s "7") (s "47.1") (s "8.5") (s "10").
Definition here_20 : Snapshot :=
  snapshot (s "1") (s "7") (s "47.1") (s "8.5") (s "20").
Definition north_10 : Point := point (s "7") (s "47.1001") (s "8.5") (s "10").

(** Fixes at 0/0, and one with the latitude alone at 0. *)
Definition unset_10 : Point := point (s "7") (s "0") (s "0") (s "10").
Definition unset_20 : Point := point JNull (s "0") (s "0") (s "20").
Definition unset_fix : Snapshot :=
  snapshot (s "1") (s "7") (s "0") (s "0") (s "10").
Definition on_equator : Point := point JNull (s "0") (s "8.5") (s "10").

(** The liveness flag is unset. *)
Definition gps_down : Snapshot :=
  snapshot JNull (s "7") (s "47.1") (s "8.5") (s "10").

(** The sample runtime with a distance package that answers [km] for
    every pair of positions. *)
Definition fixed_distance (km : Num.number) : Runtime :=
  {| StringToNumber := StringToNumber_decimal;
     NumberToString := NumberToString_decimal;
     parseFloat := parseFloat_decimal;
     gpsDistance := fun _ _ _ _ => km |}.

(** How many points the effects ask the repository to persist. *)
Definition points_created (effects : list Effect) : nat :=
  length (filter is_CreatePoint effects).

End Sample.

(** ** Fetching the snapshot *)

(** The property names of [REDIS_KEYS], lines 27-47, in the order the
    object literal lists them. *)
Module Keys.

Inductive t : Type :=
  | gpsAlive | obdAlive | latitude | longitude | altitude | fixMode
  | gpsTime | gpsSpeed | gpsSpeedKMH | gpsAccuracyLon | gpsAccuracyLat
  | gpsAccuracyHeight | gpsAccuracySpeed | obdSpeedKMH | engineRpm
  | intakeTemp | intakeMAP | recordTripIDA | recordTripIDB.

Definition all : list t :=
  [ gpsAlive; obdAlive; latitude; longitude; altitude; fixMode;
    gpsTime; gpsSpeed; gpsSpeedKMH; gpsAccuracyLon; gpsAccuracyLat;
    gpsAccuracyHeight; gpsAccuracySpeed; obdSpeedKMH; engineRpm;
    intakeTemp; intakeMAP; recordTripIDA; recordTripIDB ].

Definition name (k : t) : string :=
  match k with
  | gpsAlive => "gpsAlive" | obdAlive => "obdAlive"
  | latitude => "latitude" | longitude => "longitude"
  | altitude => "altitude" | fixMode => "fixMode"
  | gpsTime => "gpsTime" | gpsSpeed => "gpsSpeed"
  | gpsSpeedKMH => "gpsSpeedKMH" | gpsAccuracyLon => "gpsAccuracyLon"
  | gpsAccuracyLat => "gpsAccuracyLat"
  | gpsAccuracyHeight => "gpsAccuracyHeight"
  | gpsAccuracySpeed => "gpsAccuracySpeed" | obdSpeedKMH => "obdSpeedKMH"
  | engineRpm => "engineRpm" | intakeTemp => "intakeTemp"
  | intakeMAP => "intakeMAP" | recordTripIDA => "recordTripIDA"
  | recordTripIDB => "recordTripIDB"
  end.

Definition eq_dec (a b : t) : {a = b} + {a <> b}.
Proof. decide equality. Defined.

End Keys.

(** The object [o] while [getCurrentData] fills it: a property that was
    not assigned reads as [undefined]. *)
Definition Bag : Type := Keys.t -> JsValue.

Definition empty_bag : Bag := fun _ => JUndefined.

(** [o[key] = reply]. *)
Definition assign (key : Keys.t) (reply : JsValue) (o : Bag) : Bag :=
  fun k => if Keys.eq_dec key k then reply else o k.

(** The bag read as the snapshot [run] receives. *)
Definition to_snapshot (o : Bag) : Snapshot :=
  {| o_gpsAlive := o Keys.gpsAlive;
     o_obdAlive := o Keys.obdAlive;
     o_latitude := o Keys.latitude;
     o_longitude := o Keys.longitude;
     o_altitude := o Keys.altitude;
     o_fixMode := o Keys.fixMode;
     o_gpsTime := o Keys.gpsTime;
     o_gpsSpeed := o Keys.gpsSpeed;
     o_gpsSpeedKMH := o Keys.gpsSpeedKMH;
     o_gpsAccuracyLon := o Keys.gpsAccuracyLon;
     o_gpsAccuracyLat := o Keys.gpsAccuracyLat;
     o_gpsAccuracyHeight := o Keys.gpsAccuracyHeight;
     o_gpsAccuracySpeed := o Keys.gpsAccuracySpeed;
     o_obdSpeedKMH := o Keys.obdSpeedKMH;
     o_engineRpm := o Keys.engineRpm;
     o_intakeTemp := o Keys.intakeTemp;
     o_intakeMAP := o Keys.intakeMAP;
     o_recordTripIDA := o Keys.recordTripIDA;
     o_recordTripIDB := o Keys.recordTripIDB |}.

(** [o[key]] on a snapshot. *)
Definition signal (o : Snapshot) (key : Keys.t) : JsValue :=
  match key with
  | Keys.gpsAlive => o_gpsAlive o
  | Keys.obdAlive => o_obdAlive o
  | Keys.latitude => o_latitude o
  | Keys.longitude => o_longitude o
  | Keys.altitude => o_altitude o
  | Keys.fixMode => o_fixMode o
  | Keys.gpsTime => o_gpsTime o
  | Keys.gpsSpeed => o_gpsSpeed o
  | Keys.gpsSpeedKMH => o_gpsSpeedKMH o
  | Keys.gpsAccuracyLon => o_gpsAccuracyLon o
  | Keys.gpsAccuracyLat => o_gpsAccuracyLat o
  | Keys.gpsAccuracyHeight => o_gpsAccuracyHeight o
  | Keys.gpsAccuracySpeed => o_gpsAccuracySpeed o
  | Keys.obdSpeedKMH => o_obdSpeedKMH o
  | Keys.engineRpm => o_engineRpm o
  | Keys.intakeTemp => o_intakeTemp o
  | Keys.intakeMAP => o_intakeMAP o
  | Keys.recordTripIDA => o_recordTripIDA o
  | Keys.recordTripIDB => o_recordTripIDB o
  end.

(** The lines [getCurrentData] writes to its loggers. *)
Inductive LogLine : Type :=
  | Debug (msg : string)
  | Warn (msg : string)
  | Error (msg : string).

Module Store.

(** What the live store answers to one [get]: the error and the reply
    handed to the callback. *)
Definition Reply : Type := (option JsError * JsValue)%type.

Section Fetch.

(** [REDIS_KEYS[key]], the configured name of a signal in the store. *)
Variable REDIS_KEYS : Keys.t -> string.

(** [rClient.get(value, ...)] during this fetch. *)
Variable get : string -> Reply.

(** The callbacks of [rClient.get], lines 58-62, in the order [arrival]
    in which replies come in (a signal at most once), and the final
    callback of [async.forEachOf], lines 63-68, with [pending] replies
    still awaited: it fires at the first reply with an error, with [o] as
    it is then, or when no reply is awaited any more; as long as replies
    are awaited and none has come with an error, it does not fire. *)
Fixpoint replies (arrival : list Keys.t) (pending : nat) (o : Bag)
  : option (option JsError * Bag) * list LogLine :=
  match pending with
  | O => (Some (None, o), [])
  | S pending' =>
      match arrival with
      | [] => (None, [])
      | key :: later =>
          let '(err, reply) := get (REDIS_KEYS key) in
          let o := assign key reply o in
          match err with
          | Some e =>
              (Some (Some e, o),
               [ Warn ("Error while getting " ++ Keys.name key);
                 Error "Failed to get data because of an error:" ])
          | None => replies later pending' o
          end
      end
  end.

(** [getCurrentData(rClient, callback)], lines 54-69: the arguments the
    callback receives, if it is called, and the lines logged. *)
Definition getCurrentData (arrival : list Keys.t)
  : option (option JsError * Snapshot) * list LogLine :=
  let '(called, logged) := replies arrival (length Keys.all) empty_bag in
  (match called with
   | Some (err, o) => Some (err, to_snapshot o)
   | None => None
   end,
   map (fun key => Debug ("Getting " ++ Keys.name key)) Keys.all ++ logged).

(** The first signal of [arrival] whose reply carries an error. *)
Fixpoint first_failure (arrival : list Keys.t) : option JsError :=
  match arrival with
  | [] => None
  | key :: later =>
      match fst (get (REDIS_KEYS key)) with
      | Some e => Some e
      | None => first_failure later
      end
  end.

End Fetch.

End Store.

(** The answers of a cycle whose fetch called back with [args]. *)
Definition answers_of (args : option JsError * Snapshot)
    (find : JsValue -> Trip.t + JsError) (create : Point -> Point + JsError)
  : Answers :=
  {| getCurrentData := args;
     Trip_findOrCreate := find;
     TripPoint_create := create |}.

(** [run] together with its call of [getCurrentData], lines 139-197: the
    callback of line 140 runs when [getCurrentData] calls back, and
    nothing happens as long as it does not. *)
Definition run_from_store (rt : Runtime) (cfg : Config)
    (REDIS_KEYS : Keys.t -> string) (get : string -> Store.Reply)
    (arrival : list Keys.t)
    (find : JsValue -> Trip.t + JsError) (create : Point -> Point + JsError)
    (st : Recording) : Recording * list Effect :=
  match fst (Store.getCurrentData REDIS_KEYS get arrival) with
  | Some args => run rt cfg (answers_of args find create) st
  | None => (st, [])
  end.

(** Stores and repositories for the examples. *)
Module Cases.

(** Every signal is stored under its own name with the prefix [gps.]. *)
Definition keys (key : Keys.t) : string := String.append "gps." (Keys.name key).

(** A live store with a fix, a vehicle speed and a requested trip; a key
    it does not hold is answered with null. *)
Definition store (key : string) : Store.Reply :=
  (None,
   if String.eqb key "gps.gpsAlive" then JString "1"
   else if String.eqb key "gps.latitude" then JString "47.1"
   else if String.eqb key "gps.longitude" then JString "8.5"
   else if String.eqb key "gps.obdSpeedKMH" then JString "10"
   else if String.eqb key "gps.recordTripIDA" then JString "7"
   else JNull).

(** The same store without the liveness flag. *)
Definition store_without_flag (key : string) : Store.Reply :=
  if String.eqb key "gps.gpsAlive" then (None, JNull) else store key.


Definition find_any (id : JsValue) : Trip.t + JsError :=
  inl {| Trip.tripID := id |}.

Definition create_any (pt : Point) : Point + JsError := inl pt.

(** The trip repository rejects every lookup. *)
Definition failed_lookup (o : Snapshot) : Answers :=
  {| getCurrentData := (None, o);
     Trip_findOrCreate := fun id => inr (ExternalError "lookup failed");
     TripPoint_create := fun p => inl p |}.

(** A receiver without a fix reports 'nan' for the position. *)
Definition no_fix : Snapshot :=
  Sample.snapshot (JString "1") (JString "7") (JString "nan") (JString "nan")
    (JString "10").

(** Two views of one place that differ in trip and altitude only. *)
Definition parked_high : Point :=
  {| tripID := JString "9"; latitude := JString "47.1";
     longitude := JString "8.5"; altitude := JString "410";
     fixMode := JNull; gpsSpeed := JNull; accuracyLat := JNull;
     accuracyLon := JNull; accuracyAlt := JNull; accuracySpd := JNull;
     vehicleSpeed := JString "10"; vehicleIntakeTemp := JNull;
     vehicleIntakeMAP := JNull; vehicleRPM := JNull |}.

(** 11 m north of the parked vehicle, at another vehicle speed. *)
Definition north_20 : Point :=
  Sample.point (JString "7") (JString "47.1001") (JString "8.5") (JString "20").

End Cases.

(** ** Reading the code's behaviour *)

(** The completion is a thrown error. *)
Definition throws {A : Type} (c : completion A) : bool :=
  match c with
  | Return _ => false
  | Throw _ => true
  end.

(** The properties of a point, as [for (let k in o)] visits them. *)
Definition point_fields : list (Point -> JsValue) :=
  [ tripID; latitude; longitude; altitude; fixMode; gpsSpeed;
    accuracyLat; accuracyLon; accuracyAlt; accuracySpd; vehicleSpeed;
    vehicleIntakeTemp; vehicleIntakeMAP; vehicleRPM ].

Definition is_Incrbyfloat (e : Effect) : bool :=
  match e with
  | Incrbyfloat _ _ => true
  | _ => false
  end.

Definition is_FindOrCreate (e : Effect) : bool :=
  match e with
  | FindOrCreate _ => true
  | _ => false
  end.

(** The fetch of this cycle reported no error. *)
Definition fetched (w : Answers) : bool := is_null (fst (getCurrentData w)).

(** The cycles of [ws] up to and including the first whose fetch fails. *)
Fixpoint until_fetch_fails (ws : list Answers) : list Answers :=
  match ws with
  | [] => []
  | w :: ws' => if fetched w then w :: until_fetch_fails ws' else [w]
  end.

Section Outcomes.

Variable rt : Runtime.
Variable cfg : Config.

(** The ways a cycle can end, one per path through [run]: the state it
    leaves and the effects it has had. *)
Inductive Outcome (w : Answers) (st : Recording)
  : Recording * list Effect -> Prop :=
  | FetchFailed (e : JsError) (o : Snapshot) :
      getCurrentData w = (Some e, o) ->
      Outcome w st
        (st, [LogError "Error while getting current data from REDIS:"])
  | NotRecording (o : Snapshot) :
      getCurrentData w = (None, o) ->
      Js.truthy (o_gpsAlive o) && Js.truthy (o_recordTripIDA o) = false ->
      Outcome w st (st, [SetTimeoutRun (interval cfg)])
  | NothingNew (o : Snapshot) (q : Point) :
      getCurrentData w = (None, o) ->
      Js.truthy (o_gpsAlive o) = true ->
      Js.truthy (o_recordTripIDA o) = true ->
      lastRecordedDataA st = Some q ->
      pointNeedsUpdate rt cfg (Some q)
        (Some (cycle_point o (drop_stale_trip rt o st))) = Return false ->
      Outcome w st (drop_stale_trip rt o st, [SetTimeoutRun (interval cfg)])
  | TripRejected (o : Snapshot) (e : JsError) :
      getCurrentData w = (None, o) ->
      Js.truthy (o_gpsAlive o) = true ->
      Js.truthy (o_recordTripIDA o) = true ->
      wants_point rt cfg (drop_stale_trip rt o st)
        (cycle_point o (drop_stale_trip rt o st)) = Return true ->
      recordingTripA (drop_stale_trip rt o st) = None ->
      Trip_findOrCreate w (o_recordTripIDA o) = inr e ->
      Outcome w st
        (drop_stale_trip rt o st,
         [FindOrCreate (o_recordTripIDA o);
          LogError (failed_trip_line rt (o_recordTripIDA o));
          SetTimeoutRun (interval cfg)])
  | PointOfActiveTrip (o : Snapshot) (trip : Trip.t)
      (result : Recording * list Effect) :
      getCurrentData w = (None, o) ->
      Js.truthy (o_gpsAlive o) = true ->
      Js.truthy (o_recordTripIDA o) = true ->
      wants_point rt cfg (drop_stale_trip rt o st)
        (cycle_point o (drop_stale_trip rt o st)) = Return true ->
      recordingTripA (drop_stale_trip rt o st) = Some trip ->
      result = create_point rt cfg w (drop_stale_trip rt o st)
                 (cycle_point o (drop_stale_trip rt o st)) ->
      Outcome w st result
  | PointOfFoundTrip (o : Snapshot) (trip : Trip.t)
      (st' : Recording) (effects : list Effect) :
      getCurrentData w = (None, o) ->
      Js.truthy (o_gpsAlive o) = true ->
      Js.truthy (o_recordTripIDA o) = true ->
      wants_point rt cfg (drop_stale_trip rt o st)
        (cycle_point o (drop_stale_trip rt o st)) = Return true ->
      recordingTripA (drop_stale_trip rt o st) = None ->
      Trip_findOrCreate w (o_recordTripIDA o) = inl trip ->
      (st', effects)
      = create_point rt cfg w
          {| recordingTripA := Some trip;
             lastRecordedDataA := lastRecordedDataA st |}
          (set_tripID (Trip.tripID trip)
             (cycle_point o (drop_stale_trip rt o st))) ->
      Outcome w st
        (st', FindOrCreate (o_recordTripIDA o)
                :: LiveSet (key_recordTripIDA cfg) (Trip.tripID trip)
                :: PersistentSet (key_recordTripIDA cfg) (Trip.tripID trip)
                :: effects).

End Outcomes.

(** ** The significance predicate *)

Section PredicateFacts.

Variable rt : Runtime.
Variable cfg : Config.

Lemma zero_fix_some (c : Point) :
  zero_fix rt (Some c) = Return (is_zero_fix rt c).
Proof.
  unfold zero_fix, is_zero_fix; cbn.
  now destruct (Js.loose_eq rt (latitude c) Js.num0).
Qed.

Lemma nonzero_fix_some (c : Point) :
  nonzero_fix rt (Some c)
  = Return (Js.loose_neq rt (latitude c) Js.num0
            && Js.loose_neq rt (longitude c) Js.num0).
Proof.
  unfold nonzero_fix; cbn.
  now destruct (Js.loose_neq rt (latitude c) Js.num0).
Qed.

Lemma same_position_some (p c : Point) :
  same_position (Some p) (Some c) = Return (position_kept p c).
Proof.
  unfold same_position, position_kept; cbn.
  destruct (Js.strict_eq (latitude p) (latitude c)); reflexivity.
Qed.

(** With both points present the predicate is the cascade of rules 3 to 7. *)
Lemma pointNeedsUpdate_some_some (p c : Point) :
  pointNeedsUpdate rt cfg (Some p) (Some c)
  = Return (if is_zero_fix rt c then false
            else if speed_changed p c then true
            else if position_kept p c then false
            else negb (Num.ltb (metres rt p c) (minTravelDistanceM cfg))).
Proof.
  unfold pointNeedsUpdate.
  rewrite zero_fix_some, same_position_some.
  unfold metres_between.
  cbn [bind prop andc is_null andb negb].
  fold (speed_changed p c). fold (metres rt p c).
  destruct (is_zero_fix rt c); [reflexivity|].
  destruct (speed_changed p c); [reflexivity|].
  destruct (position_kept p c); [reflexivity|].
  now destruct (Num.ltb (metres rt p c) (minTravelDistanceM cfg)).
Qed.

(** Without a previous point the predicate is rule 2, then rule 3, then
    the read of [prev.vehicleSpeed] that throws. *)
Lemma pointNeedsUpdate_none_some (c : Point) :
  pointNeedsUpdate rt cfg None (Some c)
  = if Js.loose_neq rt (latitude c) Js.num0
       && Js.loose_neq rt (longitude c) Js.num0
    then Return true
    else if is_zero_fix rt c then Return false
    else Throw (TypeError "Cannot read properties of null").
Proof.
  unfold pointNeedsUpdate.
  rewrite zero_fix_some, nonzero_fix_some.
  cbn [bind prop andc is_null andb negb].
  destruct (Js.loose_neq rt (latitude c) Js.num0
            && Js.loose_neq rt (longitude c) Js.num0); [reflexivity|].
  now destruct (is_zero_fix rt c).
Qed.

Lemma eqb_not_ltb (x y : Num.number) :
  Num.eqb x y = true -> Num.ltb x y = false.
Proof.
  unfold Num.eqb, Num.ltb, SFeqb, SFltb.
  destruct (SFcompare x y) as [[ | | ]|]; congruence.
Qed.

(** C4: whatever the previous point is, a current point whose latitude
    and longitude both equal 0 needs no update, and neither does the
    absence of both points (rule 1). *)
Theorem zero_fix_needs_no_update (prev : option Point) (c : Point)
    (Hlat : Js.loose_eq rt (latitude c) Js.num0 = true)
    (Hlon : Js.loose_eq rt (longitude c) Js.num0 = true) :
  pointNeedsUpdate rt cfg prev (Some c) = Return false
  /\ pointNeedsUpdate rt cfg None None = Return false.
Proof.
  split; [|reflexivity].
  destruct prev as [p|].
  - rewrite pointNeedsUpdate_some_some.
    unfold is_zero_fix. now rewrite Hlat, Hlon.
  - rewrite pointNeedsUpdate_none_some.
    unfold is_zero_fix, Js.loose_neq. now rewrite Hlat, Hlon.
Qed.

(** C5, amended: with a previous point and a current point at the very
    same latitude and longitude, the predicate answers false when the
    current position is 0/0 or the vehicle speed is unchanged, and true
    when the vehicle speed differs and the position is not 0/0. *)
Theorem same_position_update_on_speed (p c : Point)
    (Hlat : Js.strict_eq (latitude p) (latitude c) = true)
    (Hlon : Js.strict_eq (longitude p) (longitude c) = true) :
  pointNeedsUpdate rt cfg (Some p) (Some c)
  = Return (negb (is_zero_fix rt c)
            && Js.strict_neq (vehicleSpeed p) (vehicleSpeed c)).
Proof.
  rewrite pointNeedsUpdate_some_some.
  unfold position_kept, speed_changed. rewrite Hlat, Hlon. cbn.
  destruct (is_zero_fix rt c); [reflexivity|].
  now destruct (Js.strict_neq (vehicleSpeed p) (vehicleSpeed c)).
Qed.

(** C6: with a previous point, a current position that is not 0/0 and
    differs from the previous one, and the same vehicle speed, the
    predicate answers false exactly when the distance in metres is
    strictly below the configured minimum; at the minimum itself it
    answers true. *)
Theorem distance_threshold_is_strict (p c : Point)
    (Hfix : is_zero_fix rt c = false)
    (Hspeed : Js.strict_eq (vehicleSpeed p) (vehicleSpeed c) = true)
    (Hmoved : position_kept p c = false) :
  pointNeedsUpdate rt cfg (Some p) (Some c)
  = Return (negb (Num.ltb (metres rt p c) (minTravelDistanceM cfg)))
  /\ (Num.eqb (metres rt p c) (minTravelDistanceM cfg) = true ->
      pointNeedsUpdate rt cfg (Some p) (Some c) = Return true).
Proof.
  assert (E : pointNeedsUpdate rt cfg (Some p) (Some c)
              = Return (negb (Num.ltb (metres rt p c) (minTravelDistanceM cfg)))).
  { rewrite pointNeedsUpdate_some_some.
    unfold speed_changed, Js.strict_neq.
    now rewrite Hfix, Hspeed, Hmoved. }
  split; [exact E|].
  intros Heq. rewrite E. now rewrite (eqb_not_ltb _ _ Heq).
Qed.

(** C10: without a previous point, a current point of which exactly one
    of latitude and longitude equals 0 gets past rules 1 to 3 and the
    predicate throws on the read of the previous vehicle speed. *)
Theorem half_zero_first_fix_throws (c : Point)
    (Hone : xorb (Js.loose_eq rt (latitude c) Js.num0)
                 (Js.loose_eq rt (longitude c) Js.num0) = true) :
  pointNeedsUpdate rt cfg None (Some c)
  = Throw (TypeError "Cannot read properties of null").
Proof.
  rewrite pointNeedsUpdate_none_some.
  unfold is_zero_fix, Js.loose_neq.
  destruct (Js.loose_eq rt (latitude c) Js.num0),
           (Js.loose_eq rt (longitude c) Js.num0);
    cbn in Hone |- *; congruence.
Qed.

End PredicateFacts.

(** ** The odometer and the polling cycle *)

Section RecorderFacts.

Variable rt : Runtime.
Variable cfg : Config.

Lemma wants_point_returns (st : Recording) (pt : Point) :
  exists b, wants_point rt cfg st pt = Return b.
Proof.
  unfold wants_point.
  destruct (lastRecordedDataA st) as [q|]; cbn [is_null].
  - rewrite pointNeedsUpdate_some_some. eauto.
  - eauto.
Qed.

Lemma updateOdoMeters_no_timer (prev : option Point) (p : Point) :
  rescheduled (updateOdoMeters rt cfg prev p) = false.
Proof. now destruct prev. Qed.

Lemma updateOdoMeters_no_create (prev : option Point) (p pt : Point) :
  ~ In (CreatePoint pt) (updateOdoMeters rt cfg prev p).
Proof.
  destruct prev; cbn; [|tauto].
  intros [H|[H|[H|[]]]]; discriminate H.
Qed.

Lemma create_point_rescheduled (w : Answers) (st : Recording) (pt : Point) :
  rescheduled (snd (create_point rt cfg w st pt)) = true.
Proof.
  unfold create_point, rescheduled.
  destruct (TripPoint_create w pt); cbn; [|reflexivity].
  rewrite existsb_app. cbn. apply orb_true_r.
Qed.

Lemma record_point_rescheduled (w : Answers) (o : Snapshot) (st : Recording)
    (pt : Point) :
  rescheduled (snd (record_point rt cfg w o st pt)) = true.
Proof.
  unfold record_point.
  destruct (recordingTripA st).
  - apply create_point_rescheduled.
  - destruct (Trip_findOrCreate w (o_recordTripIDA o)) as [trip|e]; [|reflexivity].
    match goal with
    | |- context [create_point rt cfg ?a ?s ?q] =>
        pose proof (create_point_rescheduled a s q) as H;
        destruct (create_point rt cfg a s q) as [s' effects]
    end.
    exact H.
Qed.

(** What [create_point] does, by the answer of the point repository. *)
Lemma create_point_rejected (w : Answers) (st : Recording) (pt : Point)
    (e : JsError) :
  TripPoint_create w pt = inr e ->
  create_point rt cfg w st pt
  = (st, [CreatePoint pt; LogError "Failed to create Point";
          SetTimeoutRun (interval cfg)]).
Proof. unfold create_point. now intros ->. Qed.

Lemma create_point_resolved (w : Answers) (st : Recording) (pt p : Point) :
  TripPoint_create w pt = inl p ->
  create_point rt cfg w st pt
  = ({| recordingTripA := recordingTripA st; lastRecordedDataA := Some p |},
     CreatePoint pt :: updateOdoMeters rt cfg (lastRecordedDataA st) p
       ++ [SetTimeoutRun (interval cfg)]).
Proof. unfold create_point. now intros ->. Qed.

Lemma create_point_asks_for (w : Answers) (st : Recording) (pt q : Point) :
  In (CreatePoint q) (snd (create_point rt cfg w st pt)) -> q = pt.
Proof.
  unfold create_point.
  destruct (TripPoint_create w pt) as [p|e]; cbn.
  - intros [H|H]; [congruence|].
    apply in_app_or in H as [H|[H|[]]]; [|discriminate H].
    now apply updateOdoMeters_no_create in H.
  - intros [H|[H|[H|[]]]]; congruence.
Qed.

Lemma create_point_persists (w : Answers) (st : Recording) (pt : Point) :
  persists (snd (create_point rt cfg w st pt)) = true.
Proof. unfold create_point. now destruct (TripPoint_create w pt). Qed.

(** The shape of a cycle whose snapshot was fetched with both the
    liveness flag and the requested trip set. *)
Lemma run_recording (w : Answers) (o : Snapshot) (st : Recording) :
  getCurrentData w = (None, o) ->
  Js.truthy (o_gpsAlive o) = true ->
  Js.truthy (o_recordTripIDA o) = true ->
  run rt cfg w st
  = let st1 := drop_stale_trip rt o st in
    match wants_point rt cfg st1 (cycle_point o st1) with
    | Throw e => (st1, [Uncaught e])
    | Return true => record_point rt cfg w o st1 (cycle_point o st1)
    | Return false => (st1, [SetTimeoutRun (interval cfg)])
    end.
Proof. unfold run. now intros -> -> ->. Qed.

Lemma drop_stale_trip_last (o : Snapshot) (st : Recording) :
  lastRecordedDataA (drop_stale_trip rt o st) = lastRecordedDataA st.
Proof.
  unfold drop_stale_trip.
  destruct (recordingTripA st) as [trip|]; [|reflexivity].
  now destruct (Js.loose_neq rt (o_recordTripIDA o) (Trip.tripID trip)).
Qed.

(** C1: a cycle schedules its successor on every path but one: when the
    fetch of the snapshot reports an error, nothing is scheduled. *)
Theorem run_rescheduled_unless_fetch_fails (w : Answers) (st : Recording) :
  rescheduled (snd (run rt cfg w st)) = is_null (fst (getCurrentData w)).
Proof.
  unfold run.
  destruct (getCurrentData w) as [[e|] o]; cbn [fst is_null]; [reflexivity|].
  destruct (Js.truthy (o_gpsAlive o)); [|reflexivity].
  destruct (Js.truthy (o_recordTripIDA o)); [|reflexivity].
  cbv zeta.
  destruct (wants_point_returns (drop_stale_trip rt o st)
              (cycle_point o (drop_stale_trip rt o st))) as [b ->].
  destruct b; [|reflexivity].
  apply record_point_rescheduled.
Qed.

(** C2, amended: when the requested trip identifier is not the active
    trip's, the active trip is reset to none before the decision and the
    last persisted point is kept; the decision of the cycle is taken
    against that kept point: the predicate is skipped only when no point
    was ever persisted. *)
Theorem stale_trip_dropped_last_point_kept (o : Snapshot) (st : Recording)
    (trip : Trip.t)
    (Hactive : recordingTripA st = Some trip)
    (Hchanged : Js.loose_neq rt (o_recordTripIDA o) (Trip.tripID trip) = true) :
  recordingTripA (drop_stale_trip rt o st) = None
  /\ lastRecordedDataA (drop_stale_trip rt o st) = lastRecordedDataA st
  /\ forall pt,
       wants_point rt cfg (drop_stale_trip rt o st) pt
       = match lastRecordedDataA st with
         | None => Return true
         | Some q => pointNeedsUpdate rt cfg (Some q) (Some pt)
         end.
Proof.
  assert (E : drop_stale_trip rt o st
              = {| recordingTripA := None;
                   lastRecordedDataA := lastRecordedDataA st |}).
  { unfold drop_stale_trip. now rewrite Hactive, Hchanged. }
  rewrite E. cbn [recordingTripA lastRecordedDataA].
  repeat split.
  intros pt. unfold wants_point. cbn [lastRecordedDataA].
  now destruct (lastRecordedDataA st).
Qed.

(** C3, amended: in a cycle with the liveness flag set, a requested trip
    and no last recorded point, the cycle goes straight to recording,
    whatever the position and without the predicate: it sends a point to
    the point repository exactly when the trip is at hand (still active,
    or answered by the trip repository; none is sent when the lookup is
    rejected), and the record the point repository answers becomes the
    last point. *)
Theorem first_point_skips_predicate (w : Answers) (o : Snapshot)
    (st : Recording)
    (Hfetch : getCurrentData w = (None, o))
    (Halive : Js.truthy (o_gpsAlive o) = true)
    (Hid : Js.truthy (o_recordTripIDA o) = true)
    (Hlast : lastRecordedDataA st = None) :
  let st1 := drop_stale_trip rt o st in
  run rt cfg w st = record_point rt cfg w o st1 (cycle_point o st1)
  /\ persists (snd (run rt cfg w st)) = trip_resolves rt w o st
  /\ (forall pt p,
        In (CreatePoint pt) (snd (run rt cfg w st)) ->
        TripPoint_create w pt = inl p ->
        lastRecordedDataA (fst (run rt cfg w st)) = Some p).
Proof.
  intros st1.
  assert (E : run rt cfg w st = record_point rt cfg w o st1 (cycle_point o st1)).
  { rewrite (run_recording w o st Hfetch Halive Hid). cbv zeta. fold st1.
    unfold wants_point. subst st1.
    now rewrite drop_stale_trip_last, Hlast. }
  rewrite E. split; [reflexivity|].
  unfold trip_resolves, record_point. fold st1.
  destruct (recordingTripA st1) as [t|].
  - split; [apply create_point_persists|].
    intros pt p Hin Hp.
    apply create_point_asks_for in Hin. subst pt.
    now rewrite (create_point_resolved w st1 _ p Hp).
  - destruct (Trip_findOrCreate w (o_recordTripIDA o)) as [t|e].
    + match goal with
      | |- context [create_point rt cfg w ?s ?q] =>
          pose proof (create_point_persists w s q) as Hp;
          pose proof (create_point_asks_for w s q) as Ha;
          pose proof (create_point_resolved w s q) as Hr;
          destruct (create_point rt cfg w s q) as [s' effects]
      end.
      cbn [fst snd] in *.
      split; [exact Hp|].
      intros pt p [Hin|[Hin|[Hin|Hin]]] Hcreate; try discriminate Hin.
      apply Ha in Hin. subst pt.
      specialize (Hr p Hcreate). now inversion Hr.
    + split; [reflexivity|].
      intros pt p [Hin|[Hin|[Hin|[]]]]; discriminate Hin.
Qed.

(** C7: without a previous point the accumulator does nothing; with one
    it adds the same amount, the distance in metres between the two
    positions, to the odometer, to trip A and to trip B, and the
    configured minimum distance plays no part. *)
Theorem updateOdoMeters_adds_distance_to_all (pv current : Point)
    (m : Num.number) :
  updateOdoMeters rt cfg None current = []
  /\ updateOdoMeters rt cfg (Some pv) current
     = [ Incrbyfloat (key_odo cfg) (metres rt pv current);
         Incrbyfloat (key_tripA cfg) (metres rt pv current);
         Incrbyfloat (key_tripB cfg) (metres rt pv current) ]
  /\ updateOdoMeters rt (with_minTravelDistanceM m cfg) (Some pv) current
     = updateOdoMeters rt cfg (Some pv) current.
Proof. repeat split. Qed.

(** C8: when the point repository rejects the point of the cycle, the
    last persisted point is the one the cycle started with, the failure
    is logged and the next cycle is scheduled. *)
Theorem failed_create_keeps_last_point (w : Answers) (st : Recording)
    (pt : Point) (e : JsError)
    (Hasked : In (CreatePoint pt) (snd (run rt cfg w st)))
    (Hrejected : TripPoint_create w pt = inr e) :
  lastRecordedDataA (fst (run rt cfg w st)) = lastRecordedDataA st
  /\ In (LogError "Failed to create Point") (snd (run rt cfg w st))
  /\ rescheduled (snd (run rt cfg w st)) = true.
Proof.
  revert Hasked. unfold run.
  destruct (getCurrentData w) as [[err|] o].
  { intros [H|[]]; discriminate H. }
  destruct (Js.truthy (o_gpsAlive o)); [|intros [H|[]]; discriminate H].
  destruct (Js.truthy (o_recordTripIDA o)); [|intros [H|[]]; discriminate H].
  cbv zeta.
  pose proof (drop_stale_trip_last o st) as Hlast.
  set (st1 := drop_stale_trip rt o st) in *.
  destruct (wants_point rt cfg st1 (cycle_point o st1)) as [[|]|err];
    [|intros [H|[]]; discriminate H|intros [H|[]]; discriminate H].
  unfold record_point.
  destruct (recordingTripA st1) as [t|].
  - intros Hin. apply create_point_asks_for in Hin. subst pt.
    rewrite (create_point_rejected w st1 _ e Hrejected). cbn.
    repeat split; auto.
  - destruct (Trip_findOrCreate w (o_recordTripIDA o)) as [t|err].
    + match goal with
      | |- context [create_point rt cfg w ?s ?q] =>
          pose proof (create_point_asks_for w s q) as Ha;
          pose proof (create_point_rejected w s q e) as Hr;
          destruct (create_point rt cfg w s q) as [s' effects]
      end.
      cbn [fst snd] in *.
      intros [Hin|[Hin|[Hin|Hin]]]; try discriminate Hin.
      apply Ha in Hin. subst pt.
      specialize (Hr Hrejected). inversion Hr; subst. cbn.
      repeat split; auto 10.
    + intros [H|[H|[H|[]]]]; discriminate H.
Qed.

(** C9: in a cycle whose snapshot has the liveness flag unset or no
    requested trip, the recording state is unchanged and no point is
    persisted; when the snapshot was fetched, scheduling the next cycle
    is all the cycle does. *)
Theorem idle_cycle_is_noop (w : Answers) (st : Recording)
    (Hidle : Js.truthy (o_gpsAlive (snd (getCurrentData w))) = false
             \/ Js.truthy (o_recordTripIDA (snd (getCurrentData w))) = false) :
  fst (run rt cfg w st) = st
  /\ persists (snd (run rt cfg w st)) = false
  /\ (fst (getCurrentData w) = None ->
      run rt cfg w st = (st, [SetTimeoutRun (interval cfg)])).
Proof.
  revert Hidle. unfold run.
  destruct (getCurrentData w) as [[err|] o]; cbn [fst snd].
  - intros _. repeat split. discriminate.
  - destruct (Js.truthy (o_gpsAlive o)); [|now repeat split].
    destruct (Js.truthy (o_recordTripIDA o)); [|now repeat split].
    intros [H|H]; discriminate H.
Qed.

End RecorderFacts.

(** ** The embedding at work *)

Section Examples.

Import Sample.

(** C4 at a first fix of 0/0. *)
Lemma zero_fix_needs_no_update_witness :
  Js.loose_eq runtime (latitude unset_10) Js.num0 = true
  /\ Js.loose_eq runtime (longitude unset_10) Js.num0 = true
  /\ pointNeedsUpdate runtime config None (Some unset_10) = Return false
  /\ pointNeedsUpdate runtime config None None = Return false.
Proof.
  split; [reflexivity|]. split; [reflexivity|].
  apply (zero_fix_needs_no_update runtime config None unset_10); reflexivity.
Defined.

(** C5 as stated fails at 0/0: the position is unchanged, the vehicle
    speed went from 10 to 20, and the predicate answers false. *)
Lemma zero_fix_hides_speed_change :
  Js.strict_eq (latitude unset_10) (latitude unset_20) = true
  /\ Js.strict_eq (longitude unset_10) (longitude unset_20) = true
  /\ Js.strict_neq (vehicleSpeed unset_10) (vehicleSpeed unset_20) = true
  /\ pointNeedsUpdate runtime config (Some unset_10) (Some unset_20)
     = Return false.
Proof. repeat split. Qed.

(** C5, amended, where the vehicle speed changes at an unchanged fix. *)
Lemma same_position_update_on_speed_witness :
  Js.strict_eq (latitude parked) (latitude (cycle_point here_20 idle)) = true
  /\ Js.strict_eq (longitude parked) (longitude (cycle_point here_20 idle)) = true
  /\ pointNeedsUpdate runtime config (Some parked)
       (Some (cycle_point here_20 idle)) = Return true.
Proof.
  split; [reflexivity|]. split; [reflexivity|].
  apply (same_position_update_on_speed runtime config parked
           (cycle_point here_20 idle)); reflexivity.
Defined.

(** C6 on a move of 11 m at the default minimum of 10 m. *)
Lemma distance_threshold_is_strict_witness :
  is_zero_fix runtime north_10 = false
  /\ Js.strict_eq (vehicleSpeed parked) (vehicleSpeed north_10) = true
  /\ position_kept parked north_10 = false
  /\ pointNeedsUpdate runtime config (Some parked) (Some north_10)
     = Return (negb (Num.ltb (metres runtime parked north_10)
                             (minTravelDistanceM config))).
Proof.
  split; [reflexivity|]. split; [reflexivity|]. split; [reflexivity|].
  exact (proj1 (distance_threshold_is_strict runtime config parked north_10
                  eq_refl eq_refl eq_refl)).
Defined.

(** At the default minimum of 10 m, a move of exactly 0.01 km is
    recorded and a move of 0.00999 km is not. *)
Example threshold_distance_updates :
  Num.eqb (metres (fixed_distance (Num.ofDecimal false 1 (-2))) parked north_10)
          (minTravelDistanceM config) = true
  /\ pointNeedsUpdate (fixed_distance (Num.ofDecimal false 1 (-2))) config
       (Some parked) (Some north_10) = Return true
  /\ pointNeedsUpdate (fixed_distance (Num.ofDecimal false 999 (-5))) config
       (Some parked) (Some north_10) = Return false.
Proof. repeat split. Qed.

(** C10 at latitude 0, longitude 8.5. *)
Lemma half_zero_first_fix_throws_witness :
  xorb (Js.loose_eq runtime (latitude on_equator) Js.num0)
       (Js.loose_eq runtime (longitude on_equator) Js.num0) = true
  /\ pointNeedsUpdate runtime config None (Some on_equator)
     = Throw (TypeError "Cannot read properties of null").
Proof.
  split; [reflexivity|].
  apply (half_zero_first_fix_throws runtime config on_equator); reflexivity.
Defined.

(** C1 fails on a fetch error: the cycle logs and schedules nothing, and
    of the three cycles of a chain only the first runs. *)
Example fetch_error_ends_the_loop :
  run runtime config (failed_fetch here_10) idle
  = (idle, [LogError "Error while getting current data from REDIS:"])
  /\ cycles_run runtime config
       [failed_fetch here_10; answers here_10; answers here_20] idle = 1%nat.
Proof. split; reflexivity. Qed.

(** C2 as stated fails: trip 1 is active, trip 2 is requested at a valid
    fix, and the last point of trip 1 is still there after line 146; a
    predicate without a previous point would ask for the point, the
    cycle persists none. *)
Lemma trip_change_keeps_last_point :
  Js.loose_neq runtime (o_recordTripIDA parked_trip2) (s "1") = true
  /\ lastRecordedDataA (drop_stale_trip runtime parked_trip2
                          (recording (s "1") parked)) <> None
  /\ pointNeedsUpdate runtime config None
       (Some (cycle_point parked_trip2 idle)) = Return true
  /\ run runtime config (answers parked_trip2) (recording (s "1") parked)
     = ({| recordingTripA := None; lastRecordedDataA := Some parked |},
        [SetTimeoutRun (interval config)]).
Proof.
  split; [reflexivity|]. split; [discriminate|]. split; reflexivity.
Qed.

(** C2, amended, on the same cycle. *)
Lemma stale_trip_dropped_last_point_kept_witness :
  recordingTripA (recording (s "1") parked) = Some {| Trip.tripID := s "1" |}
  /\ Js.loose_neq runtime (o_recordTripIDA parked_trip2) (s "1") = true
  /\ recordingTripA (drop_stale_trip runtime parked_trip2
                       (recording (s "1") parked)) = None
  /\ lastRecordedDataA (drop_stale_trip runtime parked_trip2
                          (recording (s "1") parked)) = Some parked.
Proof.
  split; [reflexivity|]. split; [reflexivity|].
  pose proof (stale_trip_dropped_last_point_kept runtime config parked_trip2
                (recording (s "1") parked) {| Trip.tripID := s "1" |}
                eq_refl eq_refl) as [H1 [H2 _]].
  split; [exact H1|exact H2].
Defined.

(** C3 as stated fails when the trip cannot be looked up: the liveness
    flag is set, trip 7 is requested, there is no last point, and the
    cycle persists nothing. *)
Lemma first_point_needs_the_trip :
  getCurrentData (Cases.failed_lookup here_10) = (None, here_10)
  /\ Js.truthy (o_gpsAlive here_10) = true
  /\ Js.truthy (o_recordTripIDA here_10) = true
  /\ lastRecordedDataA idle = None
  /\ persists (snd (run runtime config (Cases.failed_lookup here_10) idle))
     = false
  /\ fst (run runtime config (Cases.failed_lookup here_10) idle) = idle.
Proof. repeat split. Qed.

(** C3, amended, on a first fix of 0/0, which the predicate itself turns
    down. *)
Lemma first_point_skips_predicate_witness :
  getCurrentData (answers unset_fix) = (None, unset_fix)
  /\ Js.truthy (o_gpsAlive unset_fix) = true
  /\ Js.truthy (o_recordTripIDA unset_fix) = true
  /\ lastRecordedDataA idle = None
  /\ pointNeedsUpdate runtime config None (Some (cycle_point unset_fix idle))
     = Return false
  /\ persists (snd (run runtime config (answers unset_fix) idle)) = true
  /\ lastRecordedDataA (fst (run runtime config (answers unset_fix) idle))
     = Some unset_10.
Proof.
  do 5 (split; [reflexivity|]).
  pose proof (first_point_skips_predicate runtime config (answers unset_fix)
                unset_fix idle eq_refl eq_refl eq_refl eq_refl) as [_ [H1 H2]].
  split; [rewrite H1; reflexivity|].
  apply (H2 unset_10 unset_10); [|reflexivity].
  cbn. auto 6.
Defined.

(** C8 on a rejected second point of a trip. *)
Lemma failed_create_keeps_last_point_witness :
  In (CreatePoint (cycle_point here_20 (recording (s "7") parked)))
     (snd (run runtime config (failed_create here_20) (recording (s "7") parked)))
  /\ lastRecordedDataA
       (fst (run runtime config (failed_create here_20) (recording (s "7") parked)))
     = Some parked
  /\ rescheduled
       (snd (run runtime config (failed_create here_20) (recording (s "7") parked)))
     = true.
Proof.
  assert (Hasked :
    In (CreatePoint (cycle_point here_20 (recording (s "7") parked)))
       (snd (run runtime config (failed_create here_20)
               (recording (s "7") parked)))).
  { cbn. auto. }
  split; [exact Hasked|].
  pose proof (failed_create_keeps_last_point runtime config
                (failed_create here_20) (recording (s "7") parked)
                _ (ExternalError "insert failed") Hasked eq_refl)
    as [H1 [_ H3]].
  split; [exact H1|exact H3].
Defined.

(** C9 with the liveness flag unset while a trip is recorded. *)
Lemma idle_cycle_is_noop_witness :
  Js.truthy (o_gpsAlive gps_down) = false
  /\ run runtime config (answers gps_down) (recording (s "7") parked)
     = (recording (s "7") parked, [SetTimeoutRun (interval config)]).
Proof.
  split; [reflexivity|].
  pose proof (idle_cycle_is_noop runtime config (answers gps_down)
                (recording (s "7") parked) (or_introl eq_refl)) as [_ [_ H]].
  exact (H eq_refl).
Defined.

(** Three snapshots at one place with vehicle speeds 10, 10 and 20 under
    one trip give two points: the first fix and the change of speed. *)
Example speed_change_scenario :
  points_created
    (snd (cycles runtime config
            [answers here_10; answers here_10; answers here_20] idle))
  = 2%nat.
Proof. reflexivity. Qed.

End Examples.

(** ** More on the significance predicate *)

Section PredicateCases.

Variable rt : Runtime.
Variable cfg : Config.

Lemma nan_to_null_not_nan (v : JsValue) :
  Js.strict_eq (nan_to_null v) (JString "nan") = false.
Proof.
  unfold nan_to_null.
  destruct (Js.strict_eq v (JString "nan")) eqn:E; [reflexivity|exact E].
Qed.

Lemma nan_to_null_keeps (v : JsValue) :
  Js.strict_eq v (JString "nan") = false -> nan_to_null v = v.
Proof. unfold nan_to_null. now intros ->. Qed.

Lemma null_is_not_zero (v : JsValue) :
  nan_to_null v = JNull -> Js.loose_eq rt (nan_to_null v) Js.num0 = false.
Proof. now intros ->. Qed.

(** X1: without a previous point, a current point whose latitude and
    longitude are both different from 0 needs an update. *)
Theorem first_valid_fix_needs_update (c : Point)
    (Hlat : Js.loose_neq rt (latitude c) Js.num0 = true)
    (Hlon : Js.loose_neq rt (longitude c) Js.num0 = true) :
  pointNeedsUpdate rt cfg None (Some c) = Return true.
Proof.
  rewrite pointNeedsUpdate_none_some. now rewrite Hlat, Hlon.
Qed.

(** X2: the predicate throws in two situations and in no other: a
    previous point without a current one, and no previous point with a
    current one of which exactly one of latitude and longitude equals 0. *)
Theorem pointNeedsUpdate_throws_exactly (prev current : option Point) :
  throws (pointNeedsUpdate rt cfg prev current)
  = match prev, current with
    | Some _, None => true
    | None, Some c =>
        xorb (Js.loose_eq rt (latitude c) Js.num0)
             (Js.loose_eq rt (longitude c) Js.num0)
    | _, _ => false
    end.
Proof.
  destruct prev as [p|], current as [c|].
  - now rewrite pointNeedsUpdate_some_some.
  - reflexivity.
  - rewrite pointNeedsUpdate_none_some.
    unfold is_zero_fix, Js.loose_neq.
    now destruct (Js.loose_eq rt (latitude c) Js.num0),
                 (Js.loose_eq rt (longitude c) Js.num0).
  - reflexivity.
Qed.

(** X3: between two points, a vehicle speed that differs forces the
    update wherever the current position is not 0/0, whatever the
    positions, the distance and the configured minimum are. *)
Theorem speed_change_forces_update (p c : Point)
    (Hfix : is_zero_fix rt c = false)
    (Hspeed : Js.strict_neq (vehicleSpeed p) (vehicleSpeed c) = true) :
  pointNeedsUpdate rt cfg (Some p) (Some c) = Return true.
Proof.
  rewrite pointNeedsUpdate_some_some.
  unfold speed_changed. now rewrite Hfix, Hspeed.
Qed.

(** X4: the predicate reads latitude, longitude and vehicle speed and
    nothing else: points that agree on the three get the same answer. *)
Theorem pointNeedsUpdate_reads_three_fields (p p' c c' : Point)
    (Hplat : latitude p = latitude p')
    (Hplon : longitude p = longitude p')
    (Hpspeed : vehicleSpeed p = vehicleSpeed p')
    (Hclat : latitude c = latitude c')
    (Hclon : longitude c = longitude c')
    (Hcspeed : vehicleSpeed c = vehicleSpeed c') :
  pointNeedsUpdate rt cfg (Some p) (Some c)
  = pointNeedsUpdate rt cfg (Some p') (Some c')
  /\ pointNeedsUpdate rt cfg None (Some c)
     = pointNeedsUpdate rt cfg None (Some c').
Proof.
  rewrite !pointNeedsUpdate_some_some, !pointNeedsUpdate_none_some.
  unfold is_zero_fix, speed_changed, position_kept, metres.
  now rewrite Hplat, Hplon, Hpspeed, Hclat, Hclon, Hcspeed.
Qed.

(** X5: a snapshot whose latitude and longitude are the string 'nan' or
    null gives a point that is not taken for an unset fix: without a
    previous point it needs an update, like a valid first fix. *)
Theorem nan_fix_counts_as_first_fix (id : JsValue) (o : Snapshot)
    (Hlat : nan_to_null (o_latitude o) = JNull)
    (Hlon : nan_to_null (o_longitude o) = JNull) :
  pointNeedsUpdate rt cfg None (Some (transformIntoTripPoint id o))
  = Return true
  /\ is_zero_fix rt (transformIntoTripPoint id o) = false.
Proof.
  rewrite pointNeedsUpdate_none_some.
  unfold is_zero_fix, Js.loose_neq, transformIntoTripPoint, replaceNaN.
  cbn [latitude longitude].
  now rewrite (null_is_not_zero _ Hlat), (null_is_not_zero _ Hlon).
Qed.

(** X6: after [replaceNaN] no property of the object is the string
    'nan', and a property that was not 'nan' is unchanged. *)
Theorem replaceNaN_leaves_no_nan (o : Point) :
  Forall (fun field =>
            Js.strict_eq (field (replaceNaN o)) (JString "nan") = false
            /\ (Js.strict_eq (field o) (JString "nan") = false ->
                field (replaceNaN o) = field o))
         point_fields.
Proof.
  unfold point_fields, replaceNaN.
  repeat constructor; cbn;
    solve [apply nan_to_null_not_nan | apply nan_to_null_keeps].
Qed.

End PredicateCases.

(** ** More on the polling cycle *)

Section CycleCases.

Variable rt : Runtime.
Variable cfg : Config.

(** Every cycle ends in one of the outcomes. *)
Lemma run_outcome (w : Answers) (st : Recording) :
  Outcome rt cfg w st (run rt cfg w st).
Proof.
  unfold run.
  destruct (getCurrentData w) as [[e|] o] eqn:Hfetch.
  { eapply FetchFailed; eassumption. }
  destruct (Js.truthy (o_gpsAlive o)) eqn:Halive;
    [|eapply NotRecording; [eassumption|now rewrite Halive]].
  destruct (Js.truthy (o_recordTripIDA o)) eqn:Hid;
    [|eapply NotRecording; [eassumption|now rewrite Halive, Hid]].
  cbv zeta.
  destruct (wants_point_returns rt cfg (drop_stale_trip rt o st)
              (cycle_point o (drop_stale_trip rt o st))) as [b Hb].
  rewrite Hb. destruct b.
  - unfold record_point.
    destruct (recordingTripA (drop_stale_trip rt o st)) as [trip|] eqn:Htrip.
    + eapply PointOfActiveTrip; eauto.
    + destruct (Trip_findOrCreate w (o_recordTripIDA o)) as [trip|e] eqn:Hfind.
      * rewrite drop_stale_trip_last.
        match goal with
        | |- context [create_point rt cfg w ?s ?q] =>
            destruct (create_point rt cfg w s q) as [st' effects] eqn:Hcreate
        end.
        eapply PointOfFoundTrip; eauto.
      * eapply TripRejected; eauto.
  - unfold wants_point in Hb. rewrite drop_stale_trip_last in Hb.
    destruct (lastRecordedDataA st) as [q|] eqn:Hlast; [|discriminate Hb].
    eapply NothingNew; eauto.
Qed.

Lemma updateOdoMeters_in (prev : option Point) (p : Point) (e : Effect) :
  In e (updateOdoMeters rt cfg prev p) ->
  exists q key, prev = Some q /\ e = Incrbyfloat key (metres rt q p).
Proof.
  destruct prev as [q|]; cbn; [|tauto].
  intros [H|[H|[H|[]]]]; subst e; eauto.
Qed.

(** What [create_point] leaves behind, by the answer of the repository. *)
Lemma create_point_cases (w : Answers) (st : Recording) (pt : Point) :
  (exists p,
      TripPoint_create w pt = inl p
      /\ create_point rt cfg w st pt
         = ({| recordingTripA := recordingTripA st;
               lastRecordedDataA := Some p |},
            CreatePoint pt :: updateOdoMeters rt cfg (lastRecordedDataA st) p
              ++ [SetTimeoutRun (interval cfg)]))
  \/ (exists e,
        TripPoint_create w pt = inr e
        /\ create_point rt cfg w st pt
           = (st, [CreatePoint pt; LogError "Failed to create Point";
                   SetTimeoutRun (interval cfg)])).
Proof.
  destruct (TripPoint_create w pt) as [p|e] eqn:E.
  - left. exists p. split; [reflexivity|]. now apply create_point_resolved.
  - right. exists e. split; [reflexivity|]. now apply create_point_rejected with e.
Qed.

Lemma strict_eq_nan (v : JsValue) :
  Js.strict_eq v (JString "nan") = true -> v = JString "nan".
Proof.
  destruct v; cbn; try discriminate.
  intros H. apply String.eqb_eq in H. now subst.
Qed.

Lemma drop_stale_trip_none (o : Snapshot) (st : Recording) :
  recordingTripA (drop_stale_trip rt o st) = None ->
  recordingTripA st = None
  \/ exists trip, recordingTripA st = Some trip
       /\ Js.loose_neq rt (o_recordTripIDA o) (Trip.tripID trip) = true.
Proof.
  unfold drop_stale_trip.
  destruct (recordingTripA st) as [trip|] eqn:E; [|now left].
  destruct (Js.loose_neq rt (o_recordTripIDA o) (Trip.tripID trip)) eqn:N.
  - intros _. right. now exists trip.
  - rewrite E. discriminate.
Qed.

Lemma drop_stale_trip_some (o : Snapshot) (st : Recording) (trip : Trip.t) :
  recordingTripA (drop_stale_trip rt o st) = Some trip ->
  drop_stale_trip rt o st = st
  /\ recordingTripA st = Some trip
  /\ Js.loose_neq rt (o_recordTripIDA o) (Trip.tripID trip) = false.
Proof.
  unfold drop_stale_trip.
  destruct (recordingTripA st) as [t|] eqn:E; [|rewrite E; discriminate].
  destruct (Js.loose_neq rt (o_recordTripIDA o) (Trip.tripID t)) eqn:N.
  - discriminate.
  - rewrite E. intros [= ->]. now repeat split.
Qed.

End CycleCases.

Section CycleFacts.

Variable rt : Runtime.
Variable cfg : Config.

(** Case analysis on the outcome of the cycle of [w] from [st]. *)
Local Ltac by_outcome w st :=
  let H := fresh "Hout" in
  let st' := fresh "st'" in
  let effects := fresh "effects" in
  pose proof (run_outcome rt cfg w st) as H;
  destruct (run rt cfg w st) as [st' effects];
  cbn [fst snd] in *;
  inversion H; subst; clear H.

(** Replace the state and effects a point outcome names by the result of
    [create_point] they stand for. *)
Local Ltac name_created :=
  match goal with
  | H : (?a, ?b) = create_point _ _ _ _ _ |- _ =>
      let Hst := fresh "Hst" in
      let Heff := fresh "Heff" in
      pose proof (f_equal fst H) as Hst;
      pose proof (f_equal snd H) as Heff;
      cbn [fst snd] in Hst, Heff; clear H; subst a b
  end.

Local Ltac not_in_list H :=
  cbn in H; repeat (destruct H as [H|H]; [discriminate H|]); contradiction.

Lemma create_point_incr (w : Answers) (s : Recording) (pt : Point)
    (key : string) (amount : Num.number) :
  In (Incrbyfloat key amount) (snd (create_point rt cfg w s pt)) ->
  exists q p,
    lastRecordedDataA s = Some q
    /\ TripPoint_create w pt = inl p
    /\ amount = metres rt q p
    /\ lastRecordedDataA (fst (create_point rt cfg w s pt)) = Some p.
Proof.
  destruct (create_point_cases rt cfg w s pt) as [[p [Hc ->]]|[e [Hc ->]]];
    cbn [fst snd lastRecordedDataA].
  - intros [H|H]; [discriminate H|].
    apply in_app_or in H as [H|H]; [|not_in_list H].
    apply updateOdoMeters_in in H as [q [k [Hq [= _ ->]]]].
    exists q, p. now repeat split.
  - intros H. not_in_list H.
Qed.

Lemma create_point_result (w : Answers) (s : Recording) (pt q p : Point) :
  In (CreatePoint q) (snd (create_point rt cfg w s pt)) ->
  TripPoint_create w q = inl p ->
  q = pt
  /\ fst (create_point rt cfg w s pt)
     = {| recordingTripA := recordingTripA s; lastRecordedDataA := Some p |}
  /\ snd (create_point rt cfg w s pt)
     = CreatePoint pt :: updateOdoMeters rt cfg (lastRecordedDataA s) p
         ++ [SetTimeoutRun (interval cfg)].
Proof.
  intros Hin Hp.
  apply create_point_asks_for in Hin. subst q.
  now rewrite (create_point_resolved rt cfg w s pt p Hp).
Qed.

Lemma create_point_keeps_trip (w : Answers) (s : Recording) (pt : Point) :
  recordingTripA (fst (create_point rt cfg w s pt)) = recordingTripA s.
Proof.
  now destruct (create_point_cases rt cfg w s pt) as [[p [_ ->]]|[e [_ ->]]].
Qed.

Lemma create_point_no_lookup (w : Answers) (s : Recording) (pt : Point)
    (e : Effect) :
  In e (snd (create_point rt cfg w s pt)) ->
  match e with
  | FindOrCreate _ | LiveSet _ _ | PersistentSet _ _ => False
  | _ => True
  end.
Proof.
  destruct (create_point_cases rt cfg w s pt) as [[p [_ ->]]|[x [_ ->]]];
    cbn [snd].
  - intros [H|H]; [now subst e|].
    apply in_app_or in H as [H|H].
    + now apply updateOdoMeters_in in H as [q [k [_ ->]]].
    + destruct H as [H|[]]. now subst e.
  - intros [H|[H|[H|[]]]]; now subst e.
Qed.

(** X7: a cycle adds to the odometers only together with a point the
    repository accepted, and only when a last point existed before: the
    amount is the distance from that last point to the stored record,
    which becomes the last point. *)
Theorem odometer_moves_only_with_persisted_point (w : Answers)
    (st : Recording) (key : string) (amount : Num.number)
    (Hincr : In (Incrbyfloat key amount) (snd (run rt cfg w st))) :
  exists q pt p,
    lastRecordedDataA st = Some q
    /\ In (CreatePoint pt) (snd (run rt cfg w st))
    /\ TripPoint_create w pt = inl p
    /\ amount = metres rt q p
    /\ lastRecordedDataA (fst (run rt cfg w st)) = Some p.
Proof.
  revert Hincr. by_outcome w st; intros Hincr; try (not_in_list Hincr).
  - name_created.
    pose proof (create_point_persists rt cfg w (drop_stale_trip rt o st)
                  (cycle_point o (drop_stale_trip rt o st))) as Hp.
    apply create_point_incr in Hincr as [q [p [Hq [Hc [Ha Hl]]]]].
    rewrite drop_stale_trip_last in Hq.
    exists q, (cycle_point o (drop_stale_trip rt o st)), p.
    repeat split; auto.
    destruct (create_point_cases rt cfg w (drop_stale_trip rt o st)
                (cycle_point o (drop_stale_trip rt o st)))
      as [[p' [_ ->]]|[e [_ ->]]]; cbn; auto.
  - name_created.
    destruct Hincr as [H|[H|[H|Hincr]]]; try discriminate H.
    apply create_point_incr in Hincr as [q [p [Hq [Hc [Ha Hl]]]]].
    cbn [lastRecordedDataA] in Hq.
    exists q, (set_tripID (Trip.tripID trip)
                 (cycle_point o (drop_stale_trip rt o st))), p.
    repeat split; auto.
    do 3 right.
    match goal with
    | |- In _ (snd (create_point rt cfg w ?s ?q)) =>
        destruct (create_point_cases rt cfg w s q)
          as [[p' [_ ->]]|[e [_ ->]]]; cbn; auto
    end.
Qed.

(** X8: when the repository accepts the point the cycle sent, the record
    it answers becomes the last point, a trip is active, and the
    odometers are moved from the previous last point to that record. *)
Theorem persisted_point_becomes_last (w : Answers) (st : Recording)
    (pt p : Point)
    (Hasked : In (CreatePoint pt) (snd (run rt cfg w st)))
    (Hstored : TripPoint_create w pt = inl p) :
  lastRecordedDataA (fst (run rt cfg w st)) = Some p
  /\ (exists trip, recordingTripA (fst (run rt cfg w st)) = Some trip)
  /\ (forall e, In e (updateOdoMeters rt cfg (lastRecordedDataA st) p) ->
                In e (snd (run rt cfg w st))).
Proof.
  revert Hasked. by_outcome w st; intros Hasked; try (not_in_list Hasked).
  - name_created.
    destruct (create_point_result _ _ _ _ _ Hasked Hstored) as [-> [Hf Hs]].
    rewrite Hf, Hs. cbn [lastRecordedDataA recordingTripA].
    rewrite drop_stale_trip_last.
    split; [reflexivity|]. split; [eauto|].
    intros e He. right. apply in_or_app. now left.
  - name_created.
    destruct Hasked as [H|[H|[H|Hasked]]]; try discriminate H.
    destruct (create_point_result _ _ _ _ _ Hasked Hstored) as [-> [Hf Hs]].
    rewrite Hf, Hs. cbn [lastRecordedDataA recordingTripA].
    split; [reflexivity|]. split; [eauto|].
    intros e He. do 4 right. apply in_or_app. now left.
Qed.

(** X9: when the trip repository rejects the lookup, no trip is active
    after the cycle, the last point is the one before, no point is sent
    to the point repository, the failure is logged with the requested
    identifier and the next cycle is scheduled. *)
Theorem trip_rejection_leaves_idle (w : Answers) (st : Recording)
    (id : JsValue) (e : JsError)
    (Hasked : In (FindOrCreate id) (snd (run rt cfg w st)))
    (Hrejected : Trip_findOrCreate w id = inr e) :
  recordingTripA (fst (run rt cfg w st)) = None
  /\ lastRecordedDataA (fst (run rt cfg w st)) = lastRecordedDataA st
  /\ persists (snd (run rt cfg w st)) = false
  /\ In (LogError (String.append "Failed to create Trip "
                      (String.append (Js.ToString rt id) ": ")))
        (snd (run rt cfg w st))
  /\ rescheduled (snd (run rt cfg w st)) = true.
Proof.
  revert Hasked. by_outcome w st; intros Hasked; try (not_in_list Hasked).
  - destruct Hasked as [H|Hasked]; [|not_in_list Hasked].
    injection H as <-.
    rewrite drop_stale_trip_last. repeat split; cbn; auto.
  - name_created. now apply create_point_no_lookup in Hasked.
  - name_created.
    destruct Hasked as [H|[H|[H|Hasked]]]; try discriminate H.
    + injection H as <-. congruence.
    + now apply create_point_no_lookup in Hasked.
Qed.

(** X10: the identifier of a trip is written to a store only in a cycle
    that looked the trip up successfully; it is then written to the live
    store and to the persistent store alike, under the key of the
    requested trip, and that trip is the active one after the cycle. *)
Theorem found_trip_is_published (w : Answers) (st : Recording)
    (key : string) (v : JsValue)
    (Hset : In (LiveSet key v) (snd (run rt cfg w st))
            \/ In (PersistentSet key v) (snd (run rt cfg w st))) :
  key = key_recordTripIDA cfg
  /\ In (LiveSet key v) (snd (run rt cfg w st))
  /\ In (PersistentSet key v) (snd (run rt cfg w st))
  /\ exists trip,
       Trip_findOrCreate w (o_recordTripIDA (snd (getCurrentData w))) = inl trip
       /\ v = Trip.tripID trip
       /\ recordingTripA (fst (run rt cfg w st)) = Some trip.
Proof.
  revert Hset.
  by_outcome w st; intros [Hset|Hset]; try (not_in_list Hset).
  - name_created. now apply create_point_no_lookup in Hset.
  - name_created. now apply create_point_no_lookup in Hset.
  - name_created.
    destruct Hset as [H|[H|[H|Hset]]]; try discriminate H;
      [|now apply create_point_no_lookup in Hset].
    injection H as <- <-.
    match goal with H : getCurrentData w = _ |- _ => rewrite H end.
    cbn [snd]. rewrite create_point_keeps_trip.
    repeat split; cbn; eauto.
  - name_created.
    destruct Hset as [H|[H|[H|Hset]]]; try discriminate H;
      [|now apply create_point_no_lookup in Hset].
    injection H as <- <-.
    match goal with H : getCurrentData w = _ |- _ => rewrite H end.
    cbn [snd]. rewrite create_point_keeps_trip.
    repeat split; cbn; eauto.
Qed.

(** X11: the trip repository is asked only for the requested identifier,
    and only when no trip is active or the active trip has another
    identifier: a trip that is still the requested one is not looked up
    again. *)
Theorem lookup_only_without_matching_trip (w : Answers) (st : Recording)
    (id : JsValue)
    (Hasked : In (FindOrCreate id) (snd (run rt cfg w st))) :
  id = o_recordTripIDA (snd (getCurrentData w))
  /\ (recordingTripA st = None
      \/ exists trip, recordingTripA st = Some trip
           /\ Js.loose_neq rt id (Trip.tripID trip) = true).
Proof.
  revert Hasked. by_outcome w st; intros Hasked; try (not_in_list Hasked).
  - destruct Hasked as [H|Hasked]; [|not_in_list Hasked].
    injection H as <-.
    match goal with H : getCurrentData w = _ |- _ => rewrite H end.
    split; [reflexivity|]. now apply drop_stale_trip_none.
  - name_created. now apply create_point_no_lookup in Hasked.
  - name_created.
    destruct Hasked as [H|[H|[H|Hasked]]]; try discriminate H;
      [|now apply create_point_no_lookup in Hasked].
    injection H as <-.
    match goal with H : getCurrentData w = _ |- _ => rewrite H end.
    split; [reflexivity|]. now apply drop_stale_trip_none.
Qed.

(** X12: every point sent to the point repository carries the identifier
    of the trip that is active after the cycle; the one exception is an
    active trip whose identifier is the string 'nan', sent as null. *)
Theorem point_carries_active_trip (w : Answers) (st : Recording) (pt : Point)
    (Hasked : In (CreatePoint pt) (snd (run rt cfg w st))) :
  exists trip,
    recordingTripA (fst (run rt cfg w st)) = Some trip
    /\ (tripID pt = Trip.tripID trip
        \/ (Trip.tripID trip = JString "nan" /\ tripID pt = JNull)).
Proof.
  revert Hasked. by_outcome w st; intros Hasked; try (not_in_list Hasked).
  - name_created.
    apply create_point_asks_for in Hasked. subst pt.
    exists trip. rewrite create_point_keeps_trip.
    split; [assumption|].
    unfold cycle_point.
    match goal with H : recordingTripA _ = Some trip |- _ => rewrite H end.
    cbn [transformIntoTripPoint replaceNaN tripID]. unfold nan_to_null.
    destruct (Js.strict_eq (Trip.tripID trip) (JString "nan")) eqn:E.
    + right. split; [now apply strict_eq_nan|reflexivity].
    + now left.
  - name_created.
    destruct Hasked as [H|[H|[H|Hasked]]]; try discriminate H.
    apply create_point_asks_for in Hasked. subst pt.
    exists trip. rewrite create_point_keeps_trip.
    split; [reflexivity|]. now left.
Qed.

Lemma create_point_last_set (w : Answers) (s : Recording) (pt q : Point) :
  lastRecordedDataA s = Some q ->
  exists q', lastRecordedDataA (fst (create_point rt cfg w s pt)) = Some q'.
Proof.
  destruct (create_point_cases rt cfg w s pt) as [[p [_ ->]]|[e [_ ->]]];
    cbn [fst lastRecordedDataA]; eauto.
Qed.

Lemma updateOdoMeters_creates_nothing (prev : option Point) (p : Point) :
  filter is_CreatePoint (updateOdoMeters rt cfg prev p) = [].
Proof. now destruct prev. Qed.

Lemma create_point_creates_one (w : Answers) (s : Recording) (pt : Point) :
  length (filter is_CreatePoint (snd (create_point rt cfg w s pt))) = 1%nat.
Proof.
  destruct (create_point_cases rt cfg w s pt) as [[p [_ ->]]|[e [_ ->]]];
    cbn [snd]; [|reflexivity].
  cbn [filter is_CreatePoint].
  now rewrite filter_app, updateOdoMeters_creates_nothing.
Qed.

Lemma run_keeps_last_set (w : Answers) (st : Recording) (q : Point) :
  lastRecordedDataA st = Some q ->
  exists q', lastRecordedDataA (fst (run rt cfg w st)) = Some q'.
Proof.
  intros Hq. by_outcome w st; eauto.
  - rewrite drop_stale_trip_last. eauto.
  - rewrite drop_stale_trip_last. eauto.
  - name_created. apply create_point_last_set with q.
    now rewrite drop_stale_trip_last.
  - name_created. now apply create_point_last_set with q.
Qed.

Lemma run_creates_at_most_one (w : Answers) (st : Recording) :
  (length (filter is_CreatePoint (snd (run rt cfg w st))) <= 1)%nat.
Proof.
  by_outcome w st; cbn; try lia.
  - name_created. now rewrite create_point_creates_one.
  - name_created. now rewrite create_point_creates_one.
Qed.

Lemma rescheduled_when_fetched (w : Answers) (st : Recording) :
  rescheduled (snd (run rt cfg w st)) = fetched w.
Proof.
  unfold fetched.
  by_outcome w st;
    match goal with H : getCurrentData w = _ |- _ => rewrite H end;
    try reflexivity.
  - name_created. apply create_point_rescheduled.
  - name_created. cbn. apply create_point_rescheduled.
Qed.

Lemma run_unfetched (w : Answers) (st : Recording) :
  fetched w = false ->
  run rt cfg w st
  = (st, [LogError "Error while getting current data from REDIS:"]).
Proof.
  unfold fetched, run.
  now destruct (getCurrentData w) as [[e|] o].
Qed.

(** X13: once a point has been persisted, the recording state holds a
    last point after every later cycle, whatever the snapshots, the
    requested trips and the failures are. *)
Theorem last_point_never_cleared (ws : list Answers) (st : Recording)
    (q : Point)
    (Hlast : lastRecordedDataA st = Some q) :
  exists q', lastRecordedDataA (fst (cycles rt cfg ws st)) = Some q'.
Proof.
  revert st q Hlast.
  induction ws as [|w ws IH]; intros st q Hlast; cbn [cycles].
  - eauto.
  - destruct (run_keeps_last_set w st q Hlast) as [q1 H1].
    destruct (run rt cfg w st) as [st1 effects]. cbn [fst] in H1.
    destruct (rescheduled effects); [|eauto].
    destruct (IH st1 q1 H1) as [q2 H2].
    destruct (cycles rt cfg ws st1) as [st2 later]. eauto.
Qed.

(** X14: the loop sends at most one point to the repository per cycle. *)
Theorem at_most_one_point_per_cycle (ws : list Answers) (st : Recording) :
  (length (filter is_CreatePoint (snd (cycles rt cfg ws st))) <= length ws)%nat.
Proof.
  revert st.
  induction ws as [|w ws IH]; intros st; cbn [cycles length].
  - cbn. lia.
  - pose proof (run_creates_at_most_one w st) as H1.
    destruct (run rt cfg w st) as [st1 effects]. cbn [snd] in H1.
    destruct (rescheduled effects); cbn [snd]; [|lia].
    specialize (IH st1).
    destruct (cycles rt cfg ws st1) as [st2 later]. cbn [snd] in *.
    rewrite filter_app, length_app. lia.
Qed.

(** X15: a chain of cycles linked by [setTimeout] runs up to the first
    cycle whose fetch fails and ends with it: what would have come after
    it in the chain changes neither the state, nor the effects, nor the
    number of cycles the chain runs. *)
Theorem loop_stops_at_first_failed_fetch (ws : list Answers)
    (st : Recording) :
  cycles rt cfg ws st = cycles rt cfg (until_fetch_fails ws) st
  /\ cycles_run rt cfg ws st = length (until_fetch_fails ws).
Proof.
  revert st.
  induction ws as [|w ws IH]; intros st; [now split|].
  cbn [until_fetch_fails].
  pose proof (rescheduled_when_fetched w st) as Hr.
  destruct (fetched w) eqn:Hf; cbn [cycles cycles_run length].
  - destruct (run rt cfg w st) as [st1 effects]. cbn [snd] in Hr.
    rewrite Hr. destruct (IH st1) as [-> ->]. now split.
  - destruct (run rt cfg w st) as [st1 effects]. cbn [snd] in Hr.
    now rewrite Hr.
Qed.

Lemma loose_eq_refl_truthy (v : JsValue) :
  Js.truthy v = true -> Js.loose_eq rt v v = true.
Proof.
  destruct v as [| |x|n]; cbn; try discriminate.
  - intros _. apply String.eqb_refl.
  - unfold Num.eqb, SFeqb.
    destruct n as [sg|sg| |sg m e]; cbn; try discriminate; intros _.
    + now destruct sg.
    + destruct sg; rewrite Z.compare_refl, Pos.compare_cont_refl; reflexivity.
Qed.

Lemma nan_to_null_self_equal (v : JsValue) :
  Js.strict_eq v v = true ->
  Js.strict_eq (nan_to_null v) (nan_to_null v) = true.
Proof.
  unfold nan_to_null. now destruct (Js.strict_eq v (JString "nan")).
Qed.

Lemma pointNeedsUpdate_unchanged (p c : Point) :
  Js.strict_eq (latitude p) (latitude c) = true ->
  Js.strict_eq (longitude p) (longitude c) = true ->
  Js.strict_eq (vehicleSpeed p) (vehicleSpeed c) = true ->
  pointNeedsUpdate rt cfg (Some p) (Some c) = Return false.
Proof.
  intros Hlat Hlon Hspeed.
  rewrite pointNeedsUpdate_some_some.
  unfold speed_changed, position_kept, Js.strict_neq.
  rewrite Hlat, Hlon, Hspeed. cbn.
  now destruct (is_zero_fix rt c).
Qed.

Lemma drop_stale_trip_fixed (o : Snapshot) (s : Recording) (trip : Trip.t) :
  recordingTripA s = Some trip ->
  Js.loose_neq rt (o_recordTripIDA o) (Trip.tripID trip) = false ->
  drop_stale_trip rt o s = s.
Proof. unfold drop_stale_trip. now intros -> ->. Qed.

Lemma drop_stale_trip_twice (o : Snapshot) (s : Recording) :
  drop_stale_trip rt o (drop_stale_trip rt o s) = drop_stale_trip rt o s.
Proof.
  destruct (recordingTripA (drop_stale_trip rt o s)) as [trip|] eqn:E.
  - destruct (drop_stale_trip_some rt o s trip E) as [-> [H1 H2]].
    now apply drop_stale_trip_fixed with trip.
  - unfold drop_stale_trip at 1. now rewrite E.
Qed.

Lemma run_not_recording (w : Answers) (o : Snapshot) (s : Recording) :
  getCurrentData w = (None, o) ->
  Js.truthy (o_gpsAlive o) && Js.truthy (o_recordTripIDA o) = false ->
  run rt cfg w s = (s, [SetTimeoutRun (interval cfg)]).
Proof.
  unfold run. intros ->.
  destruct (Js.truthy (o_gpsAlive o)); [|reflexivity].
  now destruct (Js.truthy (o_recordTripIDA o)).
Qed.

Lemma run_nothing_new (w : Answers) (o : Snapshot) (s : Recording)
    (q : Point) :
  getCurrentData w = (None, o) ->
  Js.truthy (o_gpsAlive o) = true ->
  Js.truthy (o_recordTripIDA o) = true ->
  drop_stale_trip rt o s = s ->
  lastRecordedDataA s = Some q ->
  pointNeedsUpdate rt cfg (Some q) (Some (cycle_point o s)) = Return false ->
  run rt cfg w s = (s, [SetTimeoutRun (interval cfg)]).
Proof.
  intros Hfetch Halive Hid Hdrop Hlast Hp.
  rewrite (run_recording rt cfg w o s Hfetch Halive Hid). cbv zeta.
  rewrite Hdrop. unfold wants_point. rewrite Hlast. cbn [is_null].
  now rewrite Hp.
Qed.

(** X16: with repositories that store what they are given (the trip
    found has the requested identifier, the record created has the
    fields of the point) and a snapshot whose latitude, longitude and
    vehicle speed are not NaN, a second cycle with the same answers sends
    no point and leaves the state of the first. *)
Theorem repeated_snapshot_is_not_persisted (w : Answers) (st : Recording)
    (Hfind : forall id, Trip_findOrCreate w id = inl {| Trip.tripID := id |})
    (Hcreate : forall pt, TripPoint_create w pt = inl pt)
    (Hlat : Js.strict_eq (o_latitude (snd (getCurrentData w)))
                         (o_latitude (snd (getCurrentData w))) = true)
    (Hlon : Js.strict_eq (o_longitude (snd (getCurrentData w)))
                         (o_longitude (snd (getCurrentData w))) = true)
    (Hspeed : Js.strict_eq (o_obdSpeedKMH (snd (getCurrentData w)))
                           (o_obdSpeedKMH (snd (getCurrentData w))) = true) :
  persists (snd (run rt cfg w (fst (run rt cfg w st)))) = false
  /\ fst (run rt cfg w (fst (run rt cfg w st))) = fst (run rt cfg w st).
Proof.
  by_outcome w st;
    match goal with H : getCurrentData w = _ |- _ =>
      rewrite H in Hlat, Hlon, Hspeed; cbn [snd] in Hlat, Hlon, Hspeed
    end.
  - rewrite run_unfetched; [now split|].
    unfold fetched.
    match goal with H : getCurrentData w = _ |- _ => now rewrite H end.
  - erewrite run_not_recording; [now split|eassumption|assumption].
  - erewrite run_nothing_new with (q := q);
      [now split|eassumption|assumption|assumption| | |].
    + apply drop_stale_trip_twice.
    + now rewrite drop_stale_trip_last.
    + assumption.
  - match goal with H : Trip_findOrCreate w _ = inr _ |- _ =>
      rewrite Hfind in H; discriminate H
    end.
  - name_created.
    match goal with H : recordingTripA _ = Some trip |- _ =>
      pose proof H as Htrip;
      apply drop_stale_trip_some in H as [Hsame [_ Hid]]
    end.
    rewrite (create_point_resolved rt cfg w _ _ _ (Hcreate _)).
    cbn [fst snd].
    erewrite run_nothing_new;
      [now split|eassumption|assumption|assumption| | |].
    + apply drop_stale_trip_fixed with trip; cbn; auto.
    + reflexivity.
    + apply pointNeedsUpdate_unchanged;
        cbn; now apply nan_to_null_self_equal.
  - name_created.
    match goal with H : Trip_findOrCreate w _ = inl trip |- _ =>
      rewrite Hfind in H; injection H as <-
    end.
    rewrite (create_point_resolved rt cfg w _ _ _ (Hcreate _)).
    cbn [fst snd recordingTripA lastRecordedDataA].
    erewrite run_nothing_new;
      [now split|eassumption|assumption|assumption| | |].
    + eapply drop_stale_trip_fixed; [reflexivity|].
      cbn. unfold Js.loose_neq. now rewrite loose_eq_refl_truthy.
    + reflexivity.
    + apply pointNeedsUpdate_unchanged;
        cbn; now apply nan_to_null_self_equal.
Qed.

End CycleFacts.

(** ** The fetch of the snapshot *)

Section StoreFacts.

Variable rt : Runtime.
Variable cfg : Config.
Variable REDIS_KEYS : Keys.t -> string.
Variable get : string -> Store.Reply.

Lemma signal_to_snapshot (o : Bag) (key : Keys.t) :
  signal (to_snapshot o) key = o key.
Proof. now destruct key. Qed.

Lemma assign_same (key : Keys.t) (v : JsValue) (o : Bag) :
  assign key v o key = v.
Proof. unfold assign. now destruct (Keys.eq_dec key key). Qed.

Lemma assign_other (key k : Keys.t) (v : JsValue) (o : Bag) :
  key <> k -> assign key v o k = o k.
Proof. unfold assign. now destruct (Keys.eq_dec key k). Qed.

Lemma every_key_listed (key : Keys.t) : In key Keys.all.
Proof. destruct key; cbn; auto 20. Qed.


(** When no reply carries an error and as many replies come in as are
    awaited, the callback fires without error; every signal of [arrival]
    holds its reply and the others are as before. *)
Lemma replies_all_fine (arrival : list Keys.t) (o : Bag) :
  (forall key, In key arrival -> fst (get (REDIS_KEYS key)) = None) ->
  exists o',
    Store.replies REDIS_KEYS get arrival (length arrival) o
    = (Some (None, o'), [])
    /\ forall key,
         (In key arrival -> o' key = snd (get (REDIS_KEYS key)))
         /\ (~ In key arrival -> o' key = o key).
Proof.
  revert o.
  induction arrival as [|k later IH]; intros o Hok;
    cbn [Store.replies length].
  - exists o. split; [reflexivity|]. intros key. split; [intros []|reflexivity].
  - pose proof (Hok k (or_introl eq_refl)) as Hk.
    destruct (get (REDIS_KEYS k)) as [err reply] eqn:Hget.
    cbn [fst] in Hk. subst err.
    destruct (IH (assign k reply o)) as [o' [Hrun Hall]].
    { intros key Hin. apply Hok. now right. }
    exists o'. split; [exact Hrun|].
    intros key. destruct (Hall key) as [Hin Hout].
    destruct (in_dec Keys.eq_dec key later) as [Hl|Hl].
    + split; [intros _; now apply Hin|intros Hn; exfalso; apply Hn; now right].
    + split.
      * intros [->|H]; [|contradiction].
        rewrite (Hout Hl), assign_same. now rewrite Hget.
      * intros Hn. rewrite (Hout Hl). apply assign_other.
        intros ->. apply Hn. now left.
Qed.


Lemma replies_awaited (arrival : list Keys.t) (pending : nat) (o : Bag) :
  (length arrival < pending)%nat ->
  (forall key, In key arrival -> fst (get (REDIS_KEYS key)) = None) ->
  fst (Store.replies REDIS_KEYS get arrival pending o) = None.
Proof.
  revert pending o.
  induction arrival as [|k later IH]; intros pending o Hlt Hok;
    (destruct pending as [|pending]; [cbn in Hlt; lia|]);
    cbn [Store.replies]; [reflexivity|].
  pose proof (Hok k (or_introl eq_refl)) as Hk.
  destruct (get (REDIS_KEYS k)) as [err reply].
  cbn [fst] in Hk. subst err.
  apply IH; [cbn in Hlt; lia|].
  intros key Hin. apply Hok. now right.
Qed.

Lemma getCurrentData_called (arrival : list Keys.t) :
  fst (Store.getCurrentData REDIS_KEYS get arrival)
  = match fst (Store.replies REDIS_KEYS get arrival (length Keys.all)
                 empty_bag) with
    | Some (err, o) => Some (err, to_snapshot o)
    | None => None
    end.
Proof.
  unfold Store.getCurrentData.
  now destruct (Store.replies REDIS_KEYS get arrival (length Keys.all)
                  empty_bag) as [called logged].
Qed.


Lemma first_failure_none (arrival : list Keys.t) :
  (forall key, In key arrival -> fst (get (REDIS_KEYS key)) = None) ->
  Store.first_failure REDIS_KEYS get arrival = None.
Proof.
  induction arrival as [|k later IH]; intros Hok; [reflexivity|].
  cbn. rewrite (Hok k (or_introl eq_refl)). apply IH.
  intros key Hin. apply Hok. now right.
Qed.

(** The fetch when every signal replies once and no reply has an error. *)
Lemma getCurrentData_complete (arrival : list Keys.t) :
  Permutation Keys.all arrival ->
  (forall key, fst (get (REDIS_KEYS key)) = None) ->
  exists o,
    fst (Store.getCurrentData REDIS_KEYS get arrival) = Some (None, o)
    /\ forall key, signal o key = snd (get (REDIS_KEYS key)).
Proof.
  intros Hperm Hok.
  destruct (replies_all_fine arrival empty_bag (fun key _ => Hok key))
    as [o' [Hrun Hall]].
  rewrite <- (Permutation_length Hperm) in Hrun.
  exists (to_snapshot o').
  rewrite getCurrentData_called, Hrun. cbn [fst].
  split; [reflexivity|].
  intros key. rewrite signal_to_snapshot.
  apply Hall. apply (Permutation_in key Hperm). apply every_key_listed.
Qed.

(** X17: when every signal's reply has come in, in whatever order, and
    no read of the store has reported an error, [getCurrentData] calls
    back without error, and in the snapshot every signal holds the reply
    to the key configured for it. *)
Theorem getCurrentData_reads_every_signal (arrival : list Keys.t)
    (Hall : Permutation Keys.all arrival)
    (Hok : forall key, fst (get (REDIS_KEYS key)) = None) :
  exists o,
    fst (Store.getCurrentData REDIS_KEYS get arrival) = Some (None, o)
    /\ forall key, signal o key = snd (get (REDIS_KEYS key)).
Proof. exact (getCurrentData_complete arrival Hall Hok). Qed.



(** X20: when every signal's reply has come in without error and the
    store answers the liveness flag or the requested trip with null or
    the empty string (a key the store does not hold is answered with
    null), the cycle only schedules its successor. *)
Theorem unset_flag_in_store_idles (arrival : list Keys.t)
    (find : JsValue -> Trip.t + JsError) (create : Point -> Point + JsError)
    (st : Recording) (key : Keys.t)
    (Hall : Permutation Keys.all arrival)
    (Hok : forall k, fst (get (REDIS_KEYS k)) = None)
    (Hkey : key = Keys.gpsAlive \/ key = Keys.recordTripIDA)
    (Hunset : Js.truthy (snd (get (REDIS_KEYS key))) = false) :
  run_from_store rt cfg REDIS_KEYS get arrival find create st
  = (st, [SetTimeoutRun (interval cfg)]).
Proof.
  destruct (getCurrentData_complete arrival Hall Hok) as [o [Hfetch Hsig]].
  unfold run_from_store. rewrite Hfetch.
  apply run_not_recording with (o := o); [reflexivity|].
  destruct Hkey as [-> | ->].
  - pose proof (Hsig Keys.gpsAlive) as H. cbn [signal] in H.
    now rewrite H, Hunset.
  - pose proof (Hsig Keys.recordTripIDA) as H. cbn [signal] in H.
    rewrite H, Hunset. apply andb_false_r.
Qed.

(** X21: as long as fewer replies have come in than there are signals
    and none of them carries an error, [getCurrentData] does not call
    back and the cycle does nothing: no state change, no effect, no
    timer. *)
Theorem stalled_fetch_does_nothing (arrival : list Keys.t)
    (find : JsValue -> Trip.t + JsError) (create : Point -> Point + JsError)
    (st : Recording)
    (Hshort : (length arrival < length Keys.all)%nat)
    (Hok : forall key, In key arrival -> fst (get (REDIS_KEYS key)) = None) :
  fst (Store.getCurrentData REDIS_KEYS get arrival) = None
  /\ run_from_store rt cfg REDIS_KEYS get arrival find create st = (st, []).
Proof.
  assert (E : fst (Store.getCurrentData REDIS_KEYS get arrival) = None).
  { rewrite getCurrentData_called.
    now rewrite (replies_awaited arrival _ empty_bag Hshort Hok). }
  split; [exact E|].
  unfold run_from_store. now rewrite E.
Qed.

End StoreFacts.

(** ** The additional facts at work *)

Section MoreExamples.

Import Sample.

(** X1 at the parked vehicle as a first fix. *)
Lemma first_valid_fix_needs_update_witness :
  Js.loose_neq runtime (latitude parked) Js.num0 = true
  /\ Js.loose_neq runtime (longitude parked) Js.num0 = true
  /\ pointNeedsUpdate runtime config None (Some parked) = Return true.
Proof.
  split; [reflexivity|]. split; [reflexivity|].
  apply (first_valid_fix_needs_update runtime config parked); reflexivity.
Defined.

(** X3 with the vehicle speed going from 10 to 20 on a move of 11 m. *)
Lemma speed_change_forces_update_witness :
  is_zero_fix runtime Cases.north_20 = false
  /\ Js.strict_neq (vehicleSpeed parked) (vehicleSpeed Cases.north_20) = true
  /\ pointNeedsUpdate runtime config (Some parked) (Some Cases.north_20)
     = Return true.
Proof.
  split; [reflexivity|]. split; [reflexivity|].
  apply (speed_change_forces_update runtime config parked Cases.north_20);
    reflexivity.
Defined.

(** X4 on two records of one place that differ in trip and altitude. *)
Lemma pointNeedsUpdate_reads_three_fields_witness :
  altitude parked <> altitude Cases.parked_high
  /\ pointNeedsUpdate runtime config (Some parked) (Some north_10)
     = pointNeedsUpdate runtime config (Some Cases.parked_high) (Some north_10)
  /\ pointNeedsUpdate runtime config None (Some parked)
     = pointNeedsUpdate runtime config None (Some Cases.parked_high).
Proof.
  split; [discriminate|].
  split.
  - exact (proj1 (pointNeedsUpdate_reads_three_fields runtime config
                    parked Cases.parked_high north_10 north_10
                    eq_refl eq_refl eq_refl eq_refl eq_refl eq_refl)).
  - exact (proj2 (pointNeedsUpdate_reads_three_fields runtime config
                    north_10 north_10 parked Cases.parked_high
                    eq_refl eq_refl eq_refl eq_refl eq_refl eq_refl)).
Defined.

(** X5 on a receiver without a fix. *)
Lemma nan_fix_counts_as_first_fix_witness :
  nan_to_null (o_latitude Cases.no_fix) = JNull
  /\ nan_to_null (o_longitude Cases.no_fix) = JNull
  /\ pointNeedsUpdate runtime config None
       (Some (transformIntoTripPoint JNull Cases.no_fix)) = Return true.
Proof.
  split; [reflexivity|]. split; [reflexivity|].
  exact (proj1 (nan_fix_counts_as_first_fix runtime config JNull Cases.no_fix
                  eq_refl eq_refl)).
Defined.

(** X7 on the second point of a trip, 0 m from the first. *)
Lemma odometer_moves_only_with_persisted_point_witness :
  exists q pt p,
    lastRecordedDataA (recording (s "7") parked) = Some q
    /\ In (CreatePoint pt)
         (snd (run runtime config (answers here_20) (recording (s "7") parked)))
    /\ TripPoint_create (answers here_20) pt = inl p
    /\ Num.zero = metres runtime q p
    /\ lastRecordedDataA
         (fst (run runtime config (answers here_20) (recording (s "7") parked)))
       = Some p.
Proof.
  apply (odometer_moves_only_with_persisted_point runtime config
           (answers here_20) (recording (s "7") parked) "odo" Num.zero).
  cbn. auto.
Defined.

(** X8 on the same cycle. *)
Lemma persisted_point_becomes_last_witness :
  lastRecordedDataA
    (fst (run runtime config (answers here_20) (recording (s "7") parked)))
  = Some (cycle_point here_20 (recording (s "7") parked))
  /\ In (Incrbyfloat "trip.b" Num.zero)
        (snd (run runtime config (answers here_20) (recording (s "7") parked))).
Proof.
  assert (Hasked :
    In (CreatePoint (cycle_point here_20 (recording (s "7") parked)))
       (snd (run runtime config (answers here_20) (recording (s "7") parked)))).
  { cbn. auto. }
  destruct (persisted_point_becomes_last runtime config (answers here_20)
              (recording (s "7") parked) _ _ Hasked eq_refl) as [H1 [_ H3]].
  split; [exact H1|].
  apply H3. cbn. auto.
Defined.

(** X9 on the first cycle of a trip the repository cannot look up. *)
Lemma trip_rejection_leaves_idle_witness :
  In (FindOrCreate (s "7"))
     (snd (run runtime config (Cases.failed_lookup here_10) idle))
  /\ recordingTripA (fst (run runtime config (Cases.failed_lookup here_10) idle))
     = None
  /\ persists (snd (run runtime config (Cases.failed_lookup here_10) idle))
     = false
  /\ In (LogError "Failed to create Trip 7: ")
        (snd (run runtime config (Cases.failed_lookup here_10) idle)).
Proof.
  assert (Hasked :
    In (FindOrCreate (s "7"))
       (snd (run runtime config (Cases.failed_lookup here_10) idle))).
  { cbn. auto. }
  split; [exact Hasked|].
  destruct (trip_rejection_leaves_idle runtime config
              (Cases.failed_lookup here_10) idle (s "7")
              (ExternalError "lookup failed") Hasked eq_refl)
    as [H1 [_ [H3 [H4 _]]]].
  split; [exact H1|]. split; [exact H3|exact H4].
Defined.

(** X10 on the first cycle of trip 7. *)
Lemma found_trip_is_published_witness :
  In (LiveSet "record.trip.a" (s "7"))
     (snd (run runtime config (answers here_10) idle))
  /\ In (PersistentSet "record.trip.a" (s "7"))
        (snd (run runtime config (answers here_10) idle)).
Proof.
  assert (Hset :
    In (LiveSet "record.trip.a" (s "7"))
       (snd (run runtime config (answers here_10) idle))).
  { cbn. auto. }
  destruct (found_trip_is_published runtime config (answers here_10) idle
              _ _ (or_introl Hset)) as [_ [H1 [H2 _]]].
  split; [exact H1|exact H2].
Defined.

(** X11 on the cycle that changes from trip 1 to trip 7 with a new
    vehicle speed. *)
Lemma lookup_only_without_matching_trip_witness :
  In (FindOrCreate (s "7"))
     (snd (run runtime config (answers here_20) (recording (s "1") parked)))
  /\ exists trip,
       recordingTripA (recording (s "1") parked) = Some trip
       /\ Js.loose_neq runtime (s "7") (Trip.tripID trip) = true.
Proof.
  assert (Hasked :
    In (FindOrCreate (s "7"))
       (snd (run runtime config (answers here_20) (recording (s "1") parked)))).
  { cbn. auto. }
  split; [exact Hasked|].
  destruct (lookup_only_without_matching_trip runtime config (answers here_20)
              (recording (s "1") parked) (s "7") Hasked) as [_ [H|H]].
  - discriminate H.
  - exact H.
Defined.

(** X12 on the first point of trip 7. *)
Lemma point_carries_active_trip_witness :
  exists trip,
    recordingTripA (fst (run runtime config (answers here_10) idle)) = Some trip
    /\ (tripID (point (s "7") (s "47.1") (s "8.5") (s "10")) = Trip.tripID trip
        \/ (Trip.tripID trip = JString "nan"
            /\ tripID (point (s "7") (s "47.1") (s "8.5") (s "10")) = JNull)).
Proof.
  apply (point_carries_active_trip runtime config (answers here_10) idle).
  cbn. auto 6.
Defined.

(** X13 over a cycle without liveness flag, a change of trip and a
    rejected point. *)
Lemma last_point_never_cleared_witness :
  exists q,
    lastRecordedDataA
      (fst (cycles runtime config
              [answers gps_down; answers parked_trip2; failed_create here_20]
              (recording (s "1") parked)))
    = Some q.
Proof.
  apply (last_point_never_cleared runtime config
           [answers gps_down; answers parked_trip2; failed_create here_20]
           (recording (s "1") parked) parked).
  reflexivity.
Defined.

(** X16 on the first fix of trip 7 seen twice. *)
Lemma repeated_snapshot_is_not_persisted_witness :
  persists (snd (run runtime config (answers here_10) idle)) = true
  /\ persists
       (snd (run runtime config (answers here_10)
               (fst (run runtime config (answers here_10) idle))))
     = false.
Proof.
  split; [reflexivity|].
  exact (proj1 (repeated_snapshot_is_not_persisted runtime config
                  (answers here_10) idle
                  (fun id => eq_refl) (fun pt => eq_refl)
                  eq_refl eq_refl eq_refl)).
Defined.

(** X17 on a store that answers every read, the replies coming in
    last signal first. *)
Lemma getCurrentData_reads_every_signal_witness :
  exists o,
    fst (Store.getCurrentData Cases.keys Cases.store (rev Keys.all))
    = Some (None, o)
    /\ forall key, signal o key = snd (Cases.store (Cases.keys key)).
Proof.
  apply (getCurrentData_reads_every_signal Cases.keys Cases.store
           (rev Keys.all)).
  - apply Permutation_rev.
  - intros key. reflexivity.
Defined.


(** X20 on a store that does not hold the liveness flag. *)
Lemma unset_flag_in_store_idles_witness :
  Js.truthy (snd (Cases.store_without_flag (Cases.keys Keys.gpsAlive))) = false
  /\ run_from_store runtime config Cases.keys Cases.store_without_flag
       Keys.all Cases.find_any Cases.create_any (recording (s "7") parked)
     = (recording (s "7") parked, [SetTimeoutRun (interval config)]).
Proof.
  split; [reflexivity|].
  apply (unset_flag_in_store_idles runtime config Cases.keys
           Cases.store_without_flag Keys.all Cases.find_any Cases.create_any
           (recording (s "7") parked) Keys.gpsAlive).
  - apply Permutation_refl.
  - intros k. unfold Cases.store_without_flag.
    now destruct (String.eqb (Cases.keys k) "gps.gpsAlive").
  - now left.
  - reflexivity.
Defined.

(** X21 while only the liveness flag and the latitude have been answered. *)
Lemma stalled_fetch_does_nothing_witness :
  fst (Store.getCurrentData Cases.keys Cases.store
         [Keys.gpsAlive; Keys.latitude]) = None
  /\ run_from_store runtime config Cases.keys Cases.store
       [Keys.gpsAlive; Keys.latitude] Cases.find_any Cases.create_any idle
     = (idle, []).
Proof.
  apply (stalled_fetch_does_nothing runtime config Cases.keys Cases.store
           [Keys.gpsAlive; Keys.latitude] Cases.find_any Cases.create_any idle).
  - cbn. lia.
  - intros key _. reflexivity.
Defined.

(** The store of the examples gives the snapshot of the parked vehicle,
    and a cycle on it records the first point of trip 7. *)
Example fetch_then_record :
  fst (Store.getCurrentData Cases.keys Cases.store Keys.all)
  = Some (None, here_10)
  /\ persists
       (snd (run_from_store runtime config Cases.keys Cases.store Keys.all
               Cases.find_any Cases.create_any idle)) = true.
Proof. split; reflexivity. Qed.

End MoreExamples.
